(** * skillStore: the dataset cache-and-query engine of shareskill

    A shallow embedding of [src/lib/server/skillStore.js] and the properties
    its specification states about it.

    Conventions of the embedding:
    - a JavaScript string is a [string] holding the UTF-8 bytes of the text
      (SQLite's own representation of TEXT);
    - a JavaScript number is an integer-valued double, held as the integer
      [Z] it equals: arithmetic and conversions round to the nearest double
      ([round53]); [NaN] is a value of its own; numbers are printed in plain
      decimal, as JavaScript prints integers below 10^21; non-integral
      numbers are outside the model;
    - an object used as a record or map is an association list of its own
      properties, in insertion order;
    - module-level variables ([cachedDb], [cachedTable], [cachedMeta],
      [loadingPromise]) are the fields of an explicit [Store];
    - file system, network and the SQLite engine are read from an explicit
      [World]; a reading of the clock is an argument of the function that
      takes it;
    - a rejected promise or a thrown exception is the left summand of a sum. *)

From Stdlib Require Import ZArith List String Ascii Bool Lia Arith.
From Stdlib Require Import DecimalString DecimalPos DecimalZ Sorted.
Import ListNotations.
Local Open Scope string_scope.
Local Open Scope Z_scope.

(* ================================================================= *)
(** ** JavaScript values *)

Module Js.

(** The values that reach the store: what sql.js hands back for a column
    (null, number, string, Uint8Array), [undefined] for an absent property,
    [NaN], and the built-in objects every object literal inherits from
    [Object.prototype]. *)
Inductive JsVal : Type :=
| JUndefined
| JNull
| JNaN
| JNum (z : Z)
| JStr (s : string)
| JBytes (b : list Z)          (* Uint8Array: the bytes of a BLOB *)
| JNative (text : string).     (* built-in function or prototype object;
                                  [text] is its conversion to a string *)

(** ToBoolean. *)
Definition truthy (v : JsVal) : bool :=
  match v with
  | JUndefined | JNull | JNaN => false
  | JNum z => negb (z =? 0)
  | JStr s => negb (s =? "")%string
  | JBytes _ | JNative _ => true
  end.

(** [a || b] *)
Definition js_or (a b : JsVal) : JsVal := if truthy a then a else b.

(** [a ?? b] *)
Definition js_nullish (a b : JsVal) : JsVal :=
  match a with
  | JUndefined | JNull => b
  | _ => a
  end.

(** [v !== undefined && v !== null] *)
Definition is_present (v : JsVal) : bool :=
  match v with
  | JUndefined | JNull => false
  | _ => true
  end.

(** Neither a typed array nor a built-in object. *)
Definition is_primitive (v : JsVal) : bool :=
  match v with
  | JBytes _ | JNative _ => false
  | _ => true
  end.

(** The integer-valued double nearest to [z], ties going to the even
    mantissa: every integer of at most 53 bits is a double; a longer one
    keeps its leading 53 bits. *)
Definition round53 (z : Z) : Z :=
  let a := Z.abs z in
  if a <=? 2 ^ 53 then z
  else
    let e := Z.log2 a - 52 in
    let q := a / 2 ^ e in
    let r := a mod 2 ^ e in
    let half := 2 ^ (e - 1) in
    let q' :=
      if r <? half then q
      else if half <? r then q + 1
      else if Z.even q then q else q + 1 in
    Z.sgn z * (q' * 2 ^ e).

(** [a - b] and [a * b] on numbers. *)
Definition js_minus (a b : Z) : Z := round53 (a - b).
Definition js_times (a b : Z) : Z := round53 (a * b).

(** Decimal rendering of an integer, as [String(n)] gives it. *)
Definition decimal (z : Z) : string := NilEmpty.string_of_int (Z.to_int z).

Fixpoint join (sep : string) (l : list string) : string :=
  match l with
  | [] => ""
  | [x] => x
  | x :: rest => x ++ sep ++ join sep rest
  end.

(** [String(v)] *)
Definition toString (v : JsVal) : string :=
  match v with
  | JUndefined => "undefined"
  | JNull => "null"
  | JNaN => "NaN"
  | JNum z => decimal z
  | JStr s => s
  | JBytes b => join "," (map decimal b)
  | JNative text => text
  end.

(** [v + 1] *)
Definition plus_one (v : JsVal) : JsVal :=
  match v with
  | JUndefined | JNaN => JNaN
  | JNull => JNum 1
  | JNum z => JNum (round53 (z + 1))
  | JStr _ | JBytes _ | JNative _ => JStr (toString v ++ "1")
  end.

(** An object literal's own properties. *)
Definition Obj : Type := list (string * JsVal).

Fixpoint own (o : Obj) (k : string) : option JsVal :=
  match o with
  | [] => None
  | (k', v) :: rest => if (k' =? k)%string then Some v else own rest k
  end.

(** [row.k] on a row object: only keys that [Object.prototype] does not
    define are ever read from rows. *)
Definition get (o : Obj) (k : string) : JsVal :=
  match own o k with
  | Some v => v
  | None => JUndefined
  end.

(** *** encodeURIComponent *)

Definition hex_digit (n : nat) : ascii :=
  nth n (list_ascii_of_string "0123456789ABCDEF") "0"%char.

Definition in_range (lo hi c : nat) : bool :=
  (Nat.leb lo c && Nat.leb c hi)%bool.

Definition is_digit (a : ascii) : bool := in_range 48 57 (nat_of_ascii a).

Definition is_alpha (a : ascii) : bool :=
  let c := nat_of_ascii a in (in_range 65 90 c || in_range 97 122 c)%bool.

(** The lower case of an ASCII capital; any other byte is kept. *)
Definition lower (a : ascii) : ascii :=
  let c := nat_of_ascii a in
  if in_range 65 90 c then ascii_of_nat (c + 32) else a.

(** uriUnreserved: alphanumerics and [- _ . ! ~ * ' ( )] *)
Definition uri_unreserved (a : ascii) : bool :=
  (is_alpha a || is_digit a
   || existsb (Ascii.eqb a) (list_ascii_of_string "-_.!~*'()"))%bool.

Definition percent_byte (a : ascii) : string :=
  let c := nat_of_ascii a in
  String "%" (String (hex_digit (Nat.div c 16))
                     (String (hex_digit (Nat.modulo c 16)) "")).

Fixpoint encode_bytes (s : string) : string :=
  match s with
  | EmptyString => ""
  | String a rest =>
      (if uri_unreserved a then String a "" else percent_byte a)
        ++ encode_bytes rest
  end.

Definition encodeURIComponent (v : JsVal) : string :=
  encode_bytes (toString v).

End Js.
Export Js.

(* ================================================================= *)
(** ** RowNormalizer *)

(** [parseArrayValue] and [pickCategory] are imported from [../utils], which
    is not part of the store; the store is parametric in them. *)
Class Utils : Type := {
  parseArrayValue : JsVal -> list JsVal;
  pickCategory : JsVal -> JsVal
}.

Module Normalizer.

Record SkillRecord : Type := {
  id : JsVal;
  identifier : string;
  skill_name : JsVal;
  fromRepo : JsVal;
  skillPath : JsVal;
  repostars : JsVal;
  tagline : JsVal;
  tags : list JsVal;
  tags_en : list JsVal;
  categories : list JsVal;
  category : JsVal;
  description : JsVal;
  description_zh : JsVal;
  description_en : JsVal;
  use_case : JsVal;
  use_case_en : JsVal;
  download_url : JsVal;
  skill_md_content : JsVal;
  skill_md_content_translation : JsVal;
  file_tree : JsVal;
  how_to_install : JsVal;
  created_at : JsVal;
  updated_at : JsVal
}.

(** [arr[0]] *)
Definition first_element (arr : list JsVal) : JsVal :=
  match arr with
  | [] => JUndefined
  | x :: _ => x
  end.

Section WithUtils.
Context `{U : Utils}.

Definition normalizeSkill (row : Obj) (index : nat) : SkillRecord :=
  let tags := parseArrayValue (get row "tags") in
  let tagsEn := parseArrayValue (js_or (get row "tags_en") (get row "tagsEn")) in
  let categories := parseArrayValue (get row "categories") in
  let skillName :=
    js_or (get row "skill_name")
      (js_or (get row "skillName") (js_or (get row "name") (JStr ""))) in
  let descriptionZh :=
    js_or (get row "description_zh")
      (js_or (get row "descriptionZh")
         (js_or (get row "description") (JStr ""))) in
  let descriptionEn :=
    js_or (get row "description_en")
      (js_or (get row "descriptionEn") (JStr "")) in
  let useCaseEn :=
    js_or (get row "use_case_en") (js_or (get row "useCaseEn") (JStr "")) in
  let identifier :=
    if is_present (get row "id") then toString (get row "id")
    else if truthy skillName then encodeURIComponent skillName
    else decimal (Z.of_nat index + 1) in
  {| id := js_nullish (get row "id") (JStr identifier);
     identifier := identifier;
     skill_name := skillName;
     fromRepo :=
       js_or (get row "fromRepo") (js_or (get row "from_repo") (JStr ""));
     skillPath :=
       js_or (get row "skillPath") (js_or (get row "skill_path") (JStr ""));
     repostars :=
       js_or (get row "repostars")
         (js_or (get row "repoStars") (js_or (get row "stars") (JNum 0)));
     tagline := js_or (get row "tagline") (JStr "");
     tags := tags;
     tags_en := tagsEn;
     categories := categories;
     category :=
       js_or (first_element categories) (pickCategory (get row "categories"));
     description := descriptionZh;
     description_zh := descriptionZh;
     description_en := descriptionEn;
     use_case :=
       js_or (get row "use_case") (js_or (get row "useCase") (JStr ""));
     use_case_en := useCaseEn;
     download_url :=
       js_or (get row "download_url")
         (js_or (get row "downloadUrl") (JStr ""));
     skill_md_content :=
       js_or (get row "skill_md_content")
         (js_or (get row "skillMdContent") (JStr ""));
     skill_md_content_translation :=
       js_or (get row "skill_md_content_translation")
         (js_or (get row "skillMdContentTranslation") (JStr ""));
     file_tree :=
       js_or (get row "file_tree") (js_or (get row "fileTree") (JStr ""));
     how_to_install :=
       js_or (get row "how_to_install")
         (js_or (get row "howToInstall") (JStr ""));
     created_at :=
       js_or (get row "created_at") (js_or (get row "createdAt") (JStr ""));
     updated_at :=
       js_or (get row "updated_at") (js_or (get row "updatedAt") (JStr ""))
  |}.

End WithUtils.

(** *** The key-precedence table

    The scalar fields of a [SkillRecord] that are resolved from alternative
    row keys, the order in which [normalizeSkill] consults those keys, and
    the default each field takes. *)
Inductive Field : Type :=
| F_skill_name | F_fromRepo | F_skillPath | F_repostars | F_tagline
| F_description | F_description_zh | F_description_en
| F_use_case | F_use_case_en | F_download_url
| F_skill_md_content | F_skill_md_content_translation
| F_file_tree | F_how_to_install | F_created_at | F_updated_at.

Definition field_value (f : Field) (r : SkillRecord) : JsVal :=
  match f with
  | F_skill_name => skill_name r
  | F_fromRepo => fromRepo r
  | F_skillPath => skillPath r
  | F_repostars => repostars r
  | F_tagline => tagline r
  | F_description => description r
  | F_description_zh => description_zh r
  | F_description_en => description_en r
  | F_use_case => use_case r
  | F_use_case_en => use_case_en r
  | F_download_url => download_url r
  | F_skill_md_content => skill_md_content r
  | F_skill_md_content_translation => skill_md_content_translation r
  | F_file_tree => file_tree r
  | F_how_to_install => how_to_install r
  | F_created_at => created_at r
  | F_updated_at => updated_at r
  end.

(** The name of the field in the record. *)
Definition field_name (f : Field) : string :=
  match f with
  | F_skill_name => "skill_name"
  | F_fromRepo => "fromRepo"
  | F_skillPath => "skillPath"
  | F_repostars => "repostars"
  | F_tagline => "tagline"
  | F_description => "description"
  | F_description_zh => "description_zh"
  | F_description_en => "description_en"
  | F_use_case => "use_case"
  | F_use_case_en => "use_case_en"
  | F_download_url => "download_url"
  | F_skill_md_content => "skill_md_content"
  | F_skill_md_content_translation => "skill_md_content_translation"
  | F_file_tree => "file_tree"
  | F_how_to_install => "how_to_install"
  | F_created_at => "created_at"
  | F_updated_at => "updated_at"
  end.

(** The keys [normalizeSkill] reads for each field, in the order of its
    [||] chain. *)
Definition precedence (f : Field) : list string :=
  match f with
  | F_skill_name => ["skill_name"; "skillName"; "name"]
  | F_fromRepo => ["fromRepo"; "from_repo"]
  | F_skillPath => ["skillPath"; "skill_path"]
  | F_repostars => ["repostars"; "repoStars"; "stars"]
  | F_tagline => ["tagline"]
  | F_description | F_description_zh =>
      ["description_zh"; "descriptionZh"; "description"]
  | F_description_en => ["description_en"; "descriptionEn"]
  | F_use_case => ["use_case"; "useCase"]
  | F_use_case_en => ["use_case_en"; "useCaseEn"]
  | F_download_url => ["download_url"; "downloadUrl"]
  | F_skill_md_content => ["skill_md_content"; "skillMdContent"]
  | F_skill_md_content_translation =>
      ["skill_md_content_translation"; "skillMdContentTranslation"]
  | F_file_tree => ["file_tree"; "fileTree"]
  | F_how_to_install => ["how_to_install"; "howToInstall"]
  | F_created_at => ["created_at"; "createdAt"]
  | F_updated_at => ["updated_at"; "updatedAt"]
  end.

(** The words a key spells: the key without its underscores and without
    the case of its letters. *)
Fixpoint spelling (k : string) : string :=
  match k with
  | EmptyString => ""
  | String a rest =>
      if Ascii.eqb a "_" then spelling rest else String (lower a) (spelling rest)
  end.

Definition has_capital (k : string) : bool :=
  existsb (fun a => in_range 65 90 (nat_of_ascii a)) (list_ascii_of_string k).

(** What a row key is to a field: a key that spells the field's name is its
    camelCase key when it holds a capital and its snake_case key when it
    holds none; a key that spells something else is an alias. *)
Inductive KeyKind : Type := SnakeCase | CamelCase | Alias.

Definition key_kind (f : Field) (k : string) : KeyKind :=
  if (spelling k =? spelling (field_name f))%string
  then if has_capital k then CamelCase else SnakeCase
  else Alias.

(** The kinds of the keys read for a field, in the order they are read. *)
Definition key_kinds (f : Field) : list KeyKind :=
  map (key_kind f) (precedence f).

Definition same_kind (a b : KeyKind) : bool :=
  match a, b with
  | SnakeCase, SnakeCase | CamelCase, CamelCase | Alias, Alias => true
  | _, _ => false
  end.

Definition keys_of_kind (f : Field) (kind : KeyKind) : list string :=
  filter (fun k => same_kind (key_kind f k) kind) (precedence f).

(** The keys of a field in the order the specification gives for every
    field: snake_case, then camelCase, then the aliases. *)
Definition snake_first_keys (f : Field) : list string :=
  (keys_of_kind f SnakeCase ++ keys_of_kind f CamelCase
   ++ keys_of_kind f Alias)%list.


Definition default_value (f : Field) : JsVal :=
  match f with
  | F_repostars => JNum 0
  | _ => JStr ""
  end.

(** The first of [keys] whose value in [row] is truthy, else [dflt]. *)
Fixpoint first_truthy (row : Obj) (keys : list string) (dflt : JsVal) : JsVal :=
  match keys with
  | [] => dflt
  | k :: rest =>
      if truthy (get row k) then get row k else first_truthy row rest dflt
  end.

End Normalizer.
Export Normalizer.

(* ================================================================= *)
(** ** Failures *)

Inductive Error : Type :=
| FetchFailed (status : Z)   (* Failed to fetch remote skill db (status) *)
| NetworkError               (* fetch rejected *)
| NoTableFound               (* No skills table found *)
| ParseError                 (* the bytes are not a database *)
| SourceUnavailable          (* fs.stat or fs.readFile rejected *)
| URIError                   (* decodeURIComponent on a malformed escape *)
| SqlError.                  (* a statement does not prepare *)

Definition Result (A : Type) : Type := (Error + A)%type.

Definition ret {A : Type} (a : A) : Result A := inr a.
Definition throw {A : Type} (e : Error) : Result A := inl e.

Definition bind {A B : Type} (r : Result A) (k : A -> Result B) : Result B :=
  match r with
  | inl e => inl e
  | inr a => k a
  end.

Notation "'let*' x ':=' r 'in' k" := (bind r (fun x => k))
  (at level 10, x name, r at level 100, k at level 200, only parsing).

(* ================================================================= *)
(** ** The embedded database engine

    What the store relies on from sql.js: a database is a set of tables, a
    table a list of declared columns, some with a type affinity, and of
    rows; a stored value is NULL, an integer, a text or a blob. Table and
    column names are matched without regard to the case of ASCII letters;
    text is compared byte by byte, which is the default collation. *)

Module Sqlite.

Inductive SqlValue : Type :=
| SNull
| SInt (z : Z)
| SText (s : string)
| SBlob (b : list Z).

Definition SqlRow : Type := list (string * SqlValue).

(** What the declared type of a column makes of a value it is compared
    with: a column declared INTEGER, REAL or NUMERIC reads it as a number
    where it can, a column declared TEXT reads it as text, a column with no
    declared type or declared BLOB leaves it as it is. *)
Inductive Affinity : Type :=
| NumericAffinity
| TextAffinity
| NoAffinity.

(** [tbl_columns]: the column names as declared; [tbl_typed]: the affinity
    of those declared with one; a row is keyed by the declared names. *)
Record Table : Type := {
  tbl_name : string;
  tbl_columns : list string;
  tbl_typed : list (string * Affinity);
  tbl_rows : list SqlRow
}.

(** [db_others]: the (type, name) entries of [sqlite_master] that are not
    tables (indexes, views, triggers). *)
Record Database : Type := {
  db_tables : list Table;
  db_others : list (string * string)
}.

Definition sqlite_master (db : Database) : list (string * string) :=
  map (fun t => ("table", tbl_name t)) (db_tables db) ++ db_others db.

Fixpoint column (row : SqlRow) (c : string) : SqlValue :=
  match row with
  | [] => SNull
  | (c', v) :: rest => if (c' =? c)%string then v else column rest c
  end.

(** How sql.js returns a stored value to JavaScript: an integer comes back
    as the nearest double. *)
Definition to_js (v : SqlValue) : JsVal :=
  match v with
  | SNull => JNull
  | SInt z => JNum (round53 z)
  | SText s => JStr s
  | SBlob b => JBytes b
  end.

(** [statement.getAsObject()] for a statement whose result columns are
    [cols]. *)
Definition getAsObject (cols : list string) (row : SqlRow) : Obj :=
  map (fun c => (c, to_js (column row c))) cols.

(** [rowsFromStatement]: steps through the rows a statement with result
    columns [cols] yields and collects them as objects. *)
Definition rowsFromStatement (cols : list string) (rows : list SqlRow)
  : list Obj :=
  map (getAsObject cols) rows.

(** *** Names *)

Definition eq_nocase (a b : ascii) : bool := Ascii.eqb (lower a) (lower b).

(** Two spellings of one identifier. *)
Fixpoint same_name (a b : string) : bool :=
  match a, b with
  | EmptyString, EmptyString => true
  | String x a', String y b' => (eq_nocase x y && same_name a' b')%bool
  | _, _ => false
  end.

(** The declared name of the column a statement calls [c]. *)
Definition resolve_column (t : Table) (c : string) : option string :=
  find (same_name c) (tbl_columns t).

(** The name under which the value of column [c] is stored in a row, and
    under which a statement selecting [c] returns it. *)
Definition declared (t : Table) (c : string) : string :=
  match resolve_column t c with
  | Some d => d
  | None => c
  end.

Definition affinity (t : Table) (c : string) : Affinity :=
  match find (fun entry => (fst entry =? declared t c)%string) (tbl_typed t) with
  | Some entry => snd entry
  | None => NoAffinity
  end.

(** *** LIKE *)

Fixpoint skip_continuation (s : string) : string :=
  match s with
  | String a rest =>
      if in_range 128 191 (nat_of_ascii a) then skip_continuation rest else s
  | EmptyString => s
  end.

(** Reads one UTF-8 character off the front of [s]. *)
Definition read_char (s : string) : option string :=
  match s with
  | EmptyString => None
  | String a rest =>
      if Nat.leb 192 (nat_of_ascii a) then Some (skip_continuation rest)
      else Some rest
  end.

(** The pattern matcher of LIKE. [wild] tells that a [%] has been read and
    nothing but wildcards since: further [%] change nothing, each [_] takes
    one character, the end of the pattern matches whatever is left, and a
    literal character is sought at every later position of the text. *)
Fixpoint like_from (wild : bool) (p s : string) {struct p} : bool :=
  match p with
  | EmptyString =>
      if wild then true
      else match s with
           | EmptyString => true
           | _ => false
           end
  | String c p' =>
      if Ascii.eqb c "%" then like_from true p' s
      else if Ascii.eqb c "_" then
        match read_char s with
        | Some s' => like_from wild p' s'
        | None => false
        end
      else if wild then
        (fix seek (s : string) : bool :=
           match s with
           | EmptyString => false
           | String d s' =>
               ((eq_nocase c d && like_from false p' s') || seek s')%bool
           end) s
      else
        match s with
        | String d s' => (eq_nocase c d && like_from false p' s')%bool
        | EmptyString => false
        end
  end.

(** [s LIKE p] with the default settings: [%] matches any run of text, [_]
    one character, any other character itself up to ASCII case. *)
Definition like_match (p s : string) : bool := like_from false p s.

Definition string_of_bytes (b : list Z) : string :=
  string_of_list_ascii (map (fun z => ascii_of_nat (Z.to_nat z)) b).

(** The text a value is matched as; NULL matches nothing. *)
Definition like_operand (v : SqlValue) : option string :=
  match v with
  | SNull => None
  | SInt z => Some (decimal z)
  | SText s => Some s
  | SBlob b => Some (string_of_bytes b)
  end.

Definition sql_like (v : SqlValue) (pattern : string) : bool :=
  match like_operand v with
  | Some s => like_match pattern s
  | None => false
  end.

(** *** Bound parameters and equality *)

(** What sql.js binds to a [?]: a number that is a 32-bit integer as an
    INTEGER, any other number as a REAL, a string as a TEXT. The numbers
    are integer-valued doubles; [None] is [Infinity]. *)
Inductive Bound : Type :=
| BInteger (n : Z)
| BReal (n : option Z)
| BText (s : string).

Definition int32 (n : Z) : bool := ((- 2 ^ 31 <=? n) && (n <? 2 ^ 31))%bool.

(** [bindNumber]: [num === (num | 0)] chooses the integer binding. *)
Definition bind_number (n : option Z) : Bound :=
  match n with
  | Some z => if int32 z then BInteger z else BReal n
  | None => BReal None
  end.

(** How a text reads as a number. *)
Inductive Numeric : Type :=
| NotNumeric
| IntegerValue (n : Z)
| OtherValue.

(** The two conversions of the engine that depend on its version and are
    left open: the text it makes of a REAL that meets a TEXT column, and the
    number a column with numeric affinity reads a text as ([OtherValue]: a
    number that is not an integer, which no stored value of this model
    equals). *)
Class Engine : Type := {
  real_text : option Z -> string;
  numeric_value : string -> Numeric
}.

Definition text_is (v : SqlValue) (s : string) : bool :=
  match v with
  | SText t => (t =? s)%string
  | _ => false
  end.

Definition integer_is (v : SqlValue) (n : Z) : bool :=
  match v with
  | SInt z => z =? n
  | _ => false
  end.

(** [column = ?] for a column of affinity [a] holding [v]: the affinity is
    applied to the bound value, then values of one storage class are
    compared within it and values of different classes differ. *)
Definition sql_equals `{E : Engine} (a : Affinity) (v : SqlValue) (b : Bound)
  : bool :=
  match a, b with
  | TextAffinity, BInteger n => text_is v (decimal n)
  | TextAffinity, BReal r => text_is v (real_text r)
  | NumericAffinity, BText s =>
      match numeric_value s with
      | NotNumeric => text_is v s
      | IntegerValue n => integer_is v n
      | OtherValue => false
      end
  | _, BInteger n => integer_is v n
  | _, BReal (Some n) => integer_is v n
  | _, BReal None => false
  | _, BText s => text_is v s
  end.

(** *** Ordering of stored values *)

Definition storage_rank (v : SqlValue) : Z :=
  match v with
  | SNull => 0
  | SInt _ => 1
  | SText _ => 2
  | SBlob _ => 3
  end.

Fixpoint compare_bytes (x y : list Z) : comparison :=
  match x, y with
  | [], [] => Eq
  | [], _ :: _ => Lt
  | _ :: _, [] => Gt
  | a :: x', b :: y' =>
      match a ?= b with
      | Eq => compare_bytes x' y'
      | c => c
      end
  end.

(** NULL, then numbers, then text (by bytes), then blobs. *)
Definition sql_compare (a b : SqlValue) : comparison :=
  match a, b with
  | SInt x, SInt y => x ?= y
  | SText x, SText y => String.compare x y
  | SBlob x, SBlob y => compare_bytes x y
  | _, _ => storage_rank a ?= storage_rank b
  end.

Section Sorting.
Context {A : Type} (before : A -> A -> bool).

Fixpoint insert_by (x : A) (l : list A) : list A :=
  match l with
  | [] => [x]
  | y :: rest => if before x y then x :: l else y :: insert_by x rest
  end.

(** A stable sort: rows with equal keys keep their table order. *)
Fixpoint sort_by (l : list A) : list A :=
  match l with
  | [] => []
  | x :: rest => insert_by x (sort_by rest)
  end.
End Sorting.

(** Each element comes before all those after it. *)
Definition ordered {A : Type} (before : A -> A -> bool) : list A -> Prop :=
  StronglySorted (fun a b => before a b = true).

Definition not_after (c : comparison) : bool :=
  match c with
  | Gt => false
  | _ => true
  end.

(** [ORDER BY col] / [ORDER BY col DESC], [col] being a declared name. *)
Definition order_by (col : string) (desc : bool) (rows : list SqlRow)
  : list SqlRow :=
  sort_by
    (fun r1 r2 =>
       if desc then not_after (sql_compare (column r2 col) (column r1 col))
       else not_after (sql_compare (column r1 col) (column r2 col)))
    rows.

(** The rows left after the first [n], and the first [n] rows. *)
Fixpoint drop_rows {A : Type} (n : Z) (rows : list A) : list A :=
  match rows with
  | [] => []
  | _ :: rest => if 0 <? n then drop_rows (n - 1) rest else rows
  end.

Fixpoint take_rows {A : Type} (n : Z) (rows : list A) : list A :=
  match rows with
  | [] => []
  | row :: rest => if 0 <? n then row :: take_rows (n - 1) rest else []
  end.

(** [LIMIT limit OFFSET offset]: a negative limit is no limit, a negative
    offset is no offset. *)
Definition limit_offset {A : Type} (limit offset : Z) (rows : list A)
  : list A :=
  let rest := drop_rows offset rows in
  if limit <? 0 then rest else take_rows limit rest.

(** The numbers [LIMIT ?] and [OFFSET ?] accept: those a 64-bit integer
    holds; a REAL at either end of that range is refused. *)
Definition fits_int64 (n : Z) : bool :=
  ((- 2 ^ 63 <? n) && (n <? 2 ^ 63))%bool.

(** *** Preparing a statement over a table *)

Definition find_table (db : Database) (name : string) : option Table :=
  find (fun t => same_name (tbl_name t) name) (db_tables db).

(** The store writes the table name between double quotes into the
    statement text; a name holding a double quote does not survive that. *)
Definition quotable (name : string) : bool :=
  negb (existsb (Ascii.eqb (ascii_of_nat 34)) (list_ascii_of_string name)).

Definition has_columns (t : Table) (cols : list string) : bool :=
  forallb (fun c => existsb (same_name c) (tbl_columns t)) cols.

(** [db.prepare] of a statement reading [cols] from the quoted [name]. *)
Definition prepare (db : Database) (name : string) (cols : list string)
  : Result Table :=
  if quotable name then
    match find_table db name with
    | Some t => if has_columns t cols then ret t else throw SqlError
    | None => throw SqlError
    end
  else throw SqlError.

End Sqlite.
Export Sqlite.

(* ================================================================= *)
(** ** DatasetBuilder: table discovery *)

Module Discovery.

(** The rows of
    [SELECT name FROM sqlite_master WHERE type='table'
     AND name NOT LIKE 'sqlite_%' ORDER BY name]. *)
Definition table_names (db : Database) : list string :=
  sort_by String.leb
    (map snd
       (filter
          (fun entry =>
             ((fst entry =? "table")%string
              && negb (like_match "sqlite_%" (snd entry)))%bool)
          (sqlite_master db))).

Definition includes (names : list string) (name : string) : bool :=
  existsb (String.eqb name) names.

(** The choice [selectTableName] makes among the names; [None] is [null].
    [names[0] || null] is [null] for an empty list and for an empty first
    name alike. *)
Definition choose_table (names : list string) : option string :=
  if includes names "skills" then Some "skills"
  else if includes names "skill" then Some "skill"
  else match names with
       | first :: _ => if truthy (JStr first) then Some first else None
       | [] => None
       end.

Definition selectTableName (db : Database) : option string :=
  choose_table (table_names db).

(** [cachedTable || selectTableName(db)] *)
Definition resolve_table (cachedTable : option string) (db : Database)
  : option string :=
  match cachedTable with
  | Some t => if truthy (JStr t) then Some t else selectTableName db
  | None => selectTableName db
  end.

End Discovery.
Export Discovery.

(* ================================================================= *)
(** ** CacheManager and RemoteRevalidator *)

Module Cache.

Record Meta : Type := {
  source : string;
  etag : string;
  lastModified : string;
  lastChecked : Z;
  mtimeMs : Z
}.

Definition initial_meta : Meta :=
  {| source := ""; etag := ""; lastModified := "";
     lastChecked := 0; mtimeMs := 0 |}.

(** An object literal spread over [cachedMeta]: the keys it carries. *)
Record MetaPatch : Type := {
  set_source : option string;
  set_etag : option string;
  set_lastModified : option string;
  set_lastChecked : option Z;
  set_mtimeMs : option Z
}.

Definition or_keep {A : Type} (new : option A) (old : A) : A :=
  match new with
  | Some a => a
  | None => old
  end.

(** [{ ...m, ...p }] *)
Definition spread (m : Meta) (p : MetaPatch) : Meta :=
  {| source := or_keep (set_source p) (source m);
     etag := or_keep (set_etag p) (etag m);
     lastModified := or_keep (set_lastModified p) (lastModified m);
     lastChecked := or_keep (set_lastChecked p) (lastChecked m);
     mtimeMs := or_keep (set_mtimeMs p) (mtimeMs m) |}.

(** [cachedMeta.lastChecked = t] *)
Definition touch (m : Meta) (t : Z) : Meta :=
  {| source := source m; etag := etag m; lastModified := lastModified m;
     lastChecked := t; mtimeMs := mtimeMs m |}.

Inductive SourceType : Type := local | remote.

(** [key] is also the path or the url. *)
Record DbSource : Type := {
  type : SourceType;
  key : string
}.

(** The promise held in [loadingPromise]: which load it runs and when the
    load started. [promise_id] tells promises apart. *)
Record Pending : Type := {
  promise_id : nat;
  load_source : DbSource;
  load_started : Z
}.

Record Store : Type := {
  cachedDb : option Database;
  cachedTable : option string;
  cachedMeta : Meta;
  loadingPromise : option Pending;
  closed : list Database;     (* handles on which [close()] was called *)
  promises : nat              (* promises created so far *)
}.

Definition initial_store : Store :=
  {| cachedDb := None; cachedTable := None; cachedMeta := initial_meta;
     loadingPromise := None; closed := []; promises := 0 |}.

Definition with_meta (st : Store) (m : Meta) : Store :=
  {| cachedDb := cachedDb st; cachedTable := cachedTable st;
     cachedMeta := m; loadingPromise := loadingPromise st;
     closed := closed st; promises := promises st |}.

Definition with_loading (st : Store) (p : option Pending) (n : nat) : Store :=
  {| cachedDb := cachedDb st; cachedTable := cachedTable st;
     cachedMeta := cachedMeta st; loadingPromise := p;
     closed := closed st; promises := n |}.

(** *** Configuration and the outside world *)

Record Config : Type := {
  SKILL_DB_URL : option string;
  NEXT_PUBLIC_SKILL_DB_URL : option string;
  SKILL_DB_REVALIDATE_MS : option Z;   (* [Number(...)] of the setting, when
                                          it is a number *)
  DEFAULT_DB_PATH : string
}.

Definition REVALIDATE_MS (cfg : Config) : Z :=
  match SKILL_DB_REVALIDATE_MS cfg with
  | Some n => if n =? 0 then 4 * 60 * 60 * 1000 else n
  | None => 4 * 60 * 60 * 1000
  end.

Inductive Method : Type := GET | HEAD.

Record Request : Type := {
  method : Method;
  If_None_Match : option string;
  If_Modified_Since : option string
}.

Record Response : Type := {
  status : Z;
  header_etag : option string;            (* [headers.get("etag")] *)
  header_last_modified : option string;   (* [headers.get("last-modified")] *)
  body : list Z                           (* [arrayBuffer()] *)
}.

Definition ok (r : Response) : bool :=
  ((200 <=? status r) && (status r <=? 299))%bool.

(** [None] stands for a rejected promise. [sqlite_open] is
    [new SQL.Database(bytes)] together with the first statement run on it,
    which is where bytes that are not a database are refused. *)
Record World : Type := {
  fetch : string -> Request -> option Response;
  stat : string -> option Z;
  readFile : string -> option (list Z);
  sqlite_open : list Z -> option Database
}.

(** [value || ""] on an optional string *)
Definition or_empty (o : option string) : string :=
  match o with
  | Some s => s
  | None => ""
  end.

Definition nonempty (s : string) : bool := negb (s =? "")%string.

Fixpoint prefix_nocase (p s : string) : bool :=
  match p, s with
  | EmptyString, _ => true
  | String a p', String b s' => (eq_nocase a b && prefix_nocase p' s')%bool
  | String _ _, EmptyString => false
  end.

(** [/^https?:\/\//i.test(url)] *)
Definition is_http_url (url : string) : bool :=
  (prefix_nocase "http://" url || prefix_nocase "https://" url)%bool.

Definition getDbSource (cfg : Config) : DbSource :=
  let remoteUrl :=
    match SKILL_DB_URL cfg with
    | Some u => if nonempty u then u else or_empty (NEXT_PUBLIC_SKILL_DB_URL cfg)
    | None => or_empty (NEXT_PUBLIC_SKILL_DB_URL cfg)
    end in
  if (nonempty remoteUrl && is_http_url remoteUrl)%bool
  then {| type := remote; key := remoteUrl |}
  else {| type := local; key := DEFAULT_DB_PATH cfg |}.

(** *** Installing a dataset *)

Definition setCachedDb (db : Database) (table : string) (meta : MetaPatch)
    (st : Store) : Store :=
  {| cachedDb := Some db;
     cachedTable := Some table;
     cachedMeta := spread (cachedMeta st) meta;
     loadingPromise := loadingPromise st;
     closed := match cachedDb st with
               | Some old => old :: closed st
               | None => closed st
               end;
     promises := promises st |}.

Definition buildDbFromBuffer (w : World) (buffer : list Z) (meta : MetaPatch)
    (st : Store) : Store * Result Database :=
  match sqlite_open w buffer with
  | None => (st, throw ParseError)
  | Some db =>
      match selectTableName db with
      | None => (st, throw NoTableFound)
      | Some table => (setCachedDb db table meta st, ret db)
      end
  end.

(** *** Local source *)

(** [cachedDb && cachedMeta.source === dbPath
     && cachedMeta.mtimeMs === stats.mtimeMs] *)
Definition unchanged_file (st : Store) (dbPath : string) (mtime : Z)
  : option Database :=
  match cachedDb st with
  | Some db =>
      if ((source (cachedMeta st) =? dbPath)%string
          && (mtimeMs (cachedMeta st) =? mtime))%bool
      then Some db else None
  | None => None
  end.

(** [now] is the clock at the one place where the load reads it. There is
    no [try] in this function: every rejection leaves it. *)
Definition loadLocalDb (w : World) (dbPath : string) (now : Z) (st : Store)
  : Store * Result Database :=
  match stat w dbPath with
  | None => (st, throw SourceUnavailable)
  | Some mtime =>
      match unchanged_file st dbPath mtime with
      | Some db => (with_meta st (touch (cachedMeta st) now), ret db)
      | None =>
          match readFile w dbPath with
          | None => (st, throw SourceUnavailable)
          | Some buffer =>
              buildDbFromBuffer w buffer
                {| set_source := Some dbPath; set_lastChecked := Some now;
                   set_mtimeMs := Some mtime; set_etag := Some "";
                   set_lastModified := Some "" |} st
          end
      end
  end.

(** *** Remote source *)

Record Validators : Type := {
  v_etag : string;
  v_lastModified : string
}.

Inductive Revalidation : Type :=
| NotModified (meta : Validators)                  (* { notModified: true, meta } *)
| Downloaded (buffer : list Z) (meta : Validators). (* { buffer, meta } *)

(** The conditional headers: each is set only from a non-empty cached
    validator. *)
Definition conditional (m : Method) (cached : Meta) : Request :=
  {| method := m;
     If_None_Match := if nonempty (etag cached) then Some (etag cached) else None;
     If_Modified_Since :=
       if nonempty (lastModified cached) then Some (lastModified cached)
       else None |}.

Definition plain_get : Request :=
  {| method := GET; If_None_Match := None; If_Modified_Since := None |}.

Definition echo (cached : Meta) : Validators :=
  {| v_etag := etag cached; v_lastModified := lastModified cached |}.

(** [(etag && etag === cachedMeta.etag) ||
     (lastModified && lastModified === cachedMeta.lastModified)] *)
Definition validators_match (v : Validators) (cached : Meta) : bool :=
  ((nonempty (v_etag v) && (v_etag v =? etag cached)%string)
   || (nonempty (v_lastModified v)
       && (v_lastModified v =? lastModified cached)%string))%bool.

(** A validator the response carries is not empty and is the cached one. *)
Definition validators_equal (r : Response) (cached : Meta) : Prop :=
  (or_empty (header_etag r) <> "" /\ or_empty (header_etag r) = etag cached)
  \/ (or_empty (header_last_modified r) <> ""
      /\ or_empty (header_last_modified r) = lastModified cached).

(** The outcome of the HEAD that does not end the revalidation: the request
    was rejected, or it was answered by a status other than 304 that is not
    a 2xx carrying such a validator. *)
Definition head_inconclusive (head : option Response) (cached : Meta) : Prop :=
  match head with
  | None => True
  | Some r =>
      status r <> 304 /\ (ok r = false \/ ~ validators_equal r cached)
  end.

Definition response_validators (r : Response) : Validators :=
  {| v_etag := or_empty (header_etag r);
     v_lastModified := or_empty (header_last_modified r) |}.

(** The second half of [revalidateRemoteDb]: the conditional GET. Beside
    its outcome, the revalidation reports the requests it sent, in order. *)
Definition revalidate_get (w : World) (dbUrl : string) (cached : Meta)
  : list Request * Result Revalidation :=
  ([conditional GET cached],
   match fetch w dbUrl (conditional GET cached) with
   | None => throw NetworkError
   | Some response =>
       if status response =? 304 then ret (NotModified (echo cached))
       else if negb (ok response) then throw (FetchFailed (status response))
       else ret (Downloaded (body response) (response_validators response))
   end).

Definition then_get (w : World) (dbUrl : string) (cached : Meta)
  : list Request * Result Revalidation :=
  let '(sent, outcome) := revalidate_get w dbUrl cached in
  (conditional HEAD cached :: sent, outcome).

Definition revalidateRemoteDb (w : World) (dbUrl : string) (cached : Meta)
  : list Request * Result Revalidation :=
  (* a rejected HEAD leaves [headResponse] null *)
  let headResponse := fetch w dbUrl (conditional HEAD cached) in
  match headResponse with
  | Some head =>
      if status head =? 304
      then ([conditional HEAD cached], ret (NotModified (echo cached)))
      else if (ok head && validators_match (response_validators head) cached)%bool
      then ([conditional HEAD cached],
            ret (NotModified (response_validators head)))
      else then_get w dbUrl cached
  | None => then_get w dbUrl cached
  end.

Definition validators_patch (v : Validators) : MetaPatch :=
  {| set_source := None; set_etag := Some (v_etag v);
     set_lastModified := Some (v_lastModified v);
     set_lastChecked := None; set_mtimeMs := None |}.

(** The unconditional download at the end of [loadRemoteDb]. *)
Definition download (w : World) (dbUrl : string) (now : Z) (st : Store)
  : Store * Result Database :=
  match fetch w dbUrl plain_get with
  | None => (st, throw NetworkError)
  | Some response =>
      if negb (ok response) then (st, throw (FetchFailed (status response)))
      else
        buildDbFromBuffer w (body response)
          {| set_source := Some dbUrl; set_lastChecked := Some now;
             set_mtimeMs := Some 0;
             set_etag := Some (or_empty (header_etag response));
             set_lastModified := Some (or_empty (header_last_modified response)) |}
          st
  end.

(** [now] is read once, when the load starts. The promise of
    [buildDbFromBuffer] is returned from inside the [try] without being
    awaited there, so its rejection does not reach the [catch]: only a
    failure of [revalidateRemoteDb] does. A [Revalidation] is always one of
    the two shapes, so the [try] block always returns. *)
Definition loadRemoteDb (w : World) (dbUrl : string) (now : Z) (st : Store)
  : Store * Result Database :=
  match cachedDb st with
  | Some db =>
      if (source (cachedMeta st) =? dbUrl)%string then
        match snd (revalidateRemoteDb w dbUrl (cachedMeta st)) with
        | inr (NotModified meta) =>
            (with_meta st
               (touch (spread (cachedMeta st) (validators_patch meta)) now),
             ret db)
        | inr (Downloaded buffer meta) =>
            buildDbFromBuffer w buffer
              {| set_source := Some dbUrl; set_lastChecked := Some now;
                 set_mtimeMs := Some 0; set_etag := Some (v_etag meta);
                 set_lastModified := Some (v_lastModified meta) |} st
        | inl error =>
            let st' := with_meta st (touch (cachedMeta st) now) in
            match cachedDb st' with
            | Some db' => (st', ret db')
            | None => (st', throw error)
            end
        end
      else download w dbUrl now st
  | None => download w dbUrl now st
  end.

(** *** getDb *)

Inductive GetDb : Type :=
| Ready (db : Database)     (* returned [cachedDb] *)
| Started (p : Pending)     (* created [loadingPromise] and returned it *)
| Joined (p : Pending).     (* returned the [loadingPromise] already there *)

Definition needsCheck (cfg : Config) (now : Z) (st : Store) : bool :=
  (match cachedDb st with Some _ => false | None => true end
   || negb (source (cachedMeta st) =? key (getDbSource cfg))%string
   || (now - lastChecked (cachedMeta st) >? REVALIDATE_MS cfg))%bool.

(** The synchronous part of a call of [getDb] at time [now]: it runs to
    completion before any other caller is scheduled. *)
Definition getDb (cfg : Config) (now : Z) (st : Store) : Store * GetDb :=
  match cachedDb st, needsCheck cfg now st with
  | Some db, false => (st, Ready db)
  | _, _ =>
      match loadingPromise st with
      | Some p => (st, Joined p)
      | None =>
          let p := {| promise_id := promises st;
                      load_source := getDbSource cfg;
                      load_started := now |} in
          (with_loading st (Some p) (S (promises st)), Started p)
      end
  end.

(** Calls of [getDb] one after the other, at the given times, with no
    load completing in between; the answers in call order. *)
Fixpoint calls (cfg : Config) (times : list Z) (st : Store)
  : Store * list GetDb :=
  match times with
  | [] => (st, [])
  | now :: later =>
      let '(st1, answer) := getDb cfg now st in
      let '(st2, answers) := calls cfg later st1 in
      (st2, answer :: answers)
  end.

Definition started (answer : GetDb) : bool :=
  match answer with
  | Started _ => true
  | _ => false
  end.

(** How many loads a sequence of calls set off. *)
Definition loads_started (answers : list GetDb) : nat :=
  List.length (filter started answers).

(** The load a pending promise runs. [done] is the clock when the load
    reads it at its end (local source). *)
Definition run_load (w : World) (p : Pending) (done : Z) (st : Store)
  : Store * Result Database :=
  match type (load_source p) with
  | remote => loadRemoteDb w (key (load_source p)) (load_started p) st
  | local => loadLocalDb w (key (load_source p)) done st
  end.

(** The pending load [p] completes: [loadingPromise] is cleared on success
    and on failure alike, and the promise settles with the outcome. *)
Definition complete (w : World) (p : Pending) (done : Z) (st : Store)
  : Store * Result Database :=
  let '(st', outcome) := run_load w p done st in
  (with_loading st' None (promises st'), outcome).

Definition settle (w : World) (done : Z) (st : Store)
  : option (Store * Result Database) :=
  match loadingPromise st with
  | Some p => Some (complete w p done st)
  | None => None
  end.

(** [await getDb()] by a caller that is alone: the call, then the
    completion of the load it started or joined. *)
Definition await_getDb (cfg : Config) (w : World) (now done : Z) (st : Store)
  : Store * Result Database :=
  match getDb cfg now st with
  | (st', Ready db) => (st', ret db)
  | (st', Started p) | (st', Joined p) => complete w p done st'
  end.

End Cache.
Export Cache.

(* ================================================================= *)
(** ** decodeURIComponent *)

Module Uri.

Definition hex_value (a : ascii) : option nat :=
  let c := nat_of_ascii a in
  if in_range 48 57 c then Some (c - 48)%nat
  else if in_range 65 70 c then Some (c - 55)%nat
  else if in_range 97 102 c then Some (c - 87)%nat
  else None.

Inductive Token : Type :=
| Literal (a : ascii)
| Escaped (byte : nat).

(** Splits the text into literal characters and [%XX] escapes; [None] when
    a [%] is not followed by two hexadecimal digits. *)
Fixpoint tokens (s : string) : option (list Token) :=
  match s with
  | EmptyString => Some []
  | String a rest =>
      if Ascii.eqb a "%" then
        match rest with
        | String h1 (String h2 rest') =>
            match hex_value h1, hex_value h2, tokens rest' with
            | Some x, Some y, Some ts => Some (Escaped (16 * x + y) :: ts)
            | _, _, _ => None
            end
        | _ => None
        end
      else option_map (cons (Literal a)) (tokens rest)
  end.

Definition continuation (b : nat) : bool := in_range 128 191 b.

(** The second byte a well-formed UTF-8 sequence allows after lead [b]. *)
Definition second_ok (b b2 : nat) : bool :=
  match b with
  | 224%nat => in_range 160 191 b2
  | 237%nat => in_range 128 159 b2
  | 240%nat => in_range 144 191 b2
  | 244%nat => in_range 128 143 b2
  | _ => continuation b2
  end.

Definition bytes (l : list nat) : string :=
  string_of_list_ascii (map ascii_of_nat l).

(** Escapes below 128 stand for themselves; an escape from 128 on must
    start a well-formed UTF-8 sequence written entirely as escapes. *)
Fixpoint assemble (ts : list Token) : option string :=
  match ts with
  | [] => Some ""
  | Literal a :: rest => option_map (String a) (assemble rest)
  | Escaped b :: rest =>
      if Nat.ltb b 128 then
        option_map (String (ascii_of_nat b)) (assemble rest)
      else if in_range 194 223 b then
        match rest with
        | Escaped b2 :: rest' =>
            if continuation b2
            then option_map (append (bytes [b; b2])) (assemble rest')
            else None
        | _ => None
        end
      else if in_range 224 239 b then
        match rest with
        | Escaped b2 :: Escaped b3 :: rest' =>
            if (second_ok b b2 && continuation b3)%bool
            then option_map (append (bytes [b; b2; b3])) (assemble rest')
            else None
        | _ => None
        end
      else if in_range 240 244 b then
        match rest with
        | Escaped b2 :: Escaped b3 :: Escaped b4 :: rest' =>
            if (second_ok b b2 && continuation b3 && continuation b4)%bool
            then option_map (append (bytes [b; b2; b3; b4])) (assemble rest')
            else None
        | _ => None
        end
      else None
  end.

Definition decodeURIComponent (s : string) : Result string :=
  match tokens s with
  | Some ts =>
      match assemble ts with
      | Some decoded => ret decoded
      | None => throw URIError
      end
  | None => throw URIError
  end.

(** [/^\d+$/.test(s)] *)
Definition all_digits (s : string) : bool :=
  (nonempty s && forallb is_digit (list_ascii_of_string s))%bool.

(** The integer a string of decimal digits writes. *)
Definition digits_value (s : string) : Z :=
  fold_left (fun acc a => 10 * acc + (Z.of_nat (nat_of_ascii a) - 48))
    (list_ascii_of_string s) 0.

(** [Number(s)] for a string of decimal digits: the double nearest to the
    integer written; [None] is [Infinity], which the integers from 2^1024
    on round to. *)
Definition digits_number (s : string) : option Z :=
  let d := round53 (digits_value s) in
  if d <? 2 ^ 1024 then Some d else None.

End Uri.
Export Uri.

(* ================================================================= *)
(** ** The [counts] object of the summary

    [counts] starts as the object literal [{}], whose prototype is
    [Object.prototype]: reading a key it does not own finds what the
    prototype defines under that name. *)

Module Counts.

Definition native_function (name : string) : JsVal :=
  JNative ("function " ++ name ++ "() { [native code] }").

Definition prototype_methods : list string :=
  ["constructor"; "toString"; "toLocaleString"; "valueOf";
   "hasOwnProperty"; "isPrototypeOf"; "propertyIsEnumerable";
   "__defineGetter__"; "__defineSetter__";
   "__lookupGetter__"; "__lookupSetter__"].

(** What [{}] inherits under [k]. [constructor] is the function [Object];
    [__proto__] is an accessor that yields [Object.prototype] itself. *)
Definition inherited (k : string) : option JsVal :=
  if (k =? "constructor")%string then Some (native_function "Object")
  else if (k =? "__proto__")%string then Some (JNative "[object Object]")
  else if existsb (String.eqb k) prototype_methods
  then Some (native_function k)
  else None.

(** [counts[k]] *)
Definition lookup (counts : Obj) (k : string) : JsVal :=
  match own counts k with
  | Some v => v
  | None =>
      match inherited k with
      | Some v => v
      | None => JUndefined
      end
  end.

Fixpoint set_own (o : Obj) (k : string) (v : JsVal) : Obj :=
  match o with
  | [] => [(k, v)]
  | (k', v') :: rest =>
      if (k' =? k)%string then (k', v) :: rest
      else (k', v') :: set_own rest k v
  end.

(** [counts[k] = v] for a primitive [v]: the [__proto__] setter ignores
    primitives; every other key becomes or stays an own property. *)
Definition assign (counts : Obj) (k : string) (v : JsVal) : Obj :=
  if (k =? "__proto__")%string then counts else set_own counts k v.

(** The sum of the counts an object holds, when all of them are numbers. *)
Fixpoint sum_counts (counts : Obj) : option Z :=
  match counts with
  | [] => Some 0
  | (_, JNum n) :: rest => option_map (Z.add n) (sum_counts rest)
  | _ :: _ => None
  end.

(** Every count held is a number, and not zero. *)
Definition positive_counts (o : Obj) : Prop :=
  Forall (fun kv => exists n, snd kv = JNum n /\ 0 < n) o.

End Counts.
Export Counts.

(* ================================================================= *)
(** ** QueryEngine *)

Module Query.

(** One [column LIKE ?], with the parameter bound to its [?]. *)
Definition Like : Type := (string * string)%type.

(** The [conditions] array of [buildWhereClause] with its parameters: each
    condition is a run of [column LIKE ?] terms that the source joins with
    " OR " and does not parenthesise. The clause text is the conditions
    joined with " AND "; no condition is the empty clause. *)
Definition Where : Type := list (list Like).

Definition searched_columns : list string :=
  ["skill_name"; "tagline"; "description"; "description_zh";
   "description_en"; "use_case"; "use_case_en"; "tags"; "tags_en"].

Definition buildWhereClause (q category : string) : Where :=
  app
    (if nonempty category
     then [[("categories", "%" ++ category ++ "%")]] else [])
    (if nonempty q
     then [map (fun c => (c, "%" ++ q ++ "%")) searched_columns] else []).

Definition where_columns (w : Where) : list string :=
  flat_map (map fst) w.

Inductive Connective : Type := AND | OR.

(** The terms of the clause text in the order they are written, each with
    the connective written before it (the one before the first term is not
    written). *)
Definition clause_terms (w : Where) : list (Connective * Like) :=
  flat_map
    (fun condition =>
       match condition with
       | [] => []
       | first :: rest => (AND, first) :: map (pair OR) rest
       end)
    w.

Definition term_holds (t : Table) (row : SqlRow) (term : Like) : bool :=
  sql_like (column row (declared t (fst term))) (snd term).

(** How SQLite reads the text: AND binds tighter than OR. [current] is
    the value of the run of ANDed terms read so far. A term over NULL is
    NULL, which keeps no row, as a false term does. *)
Fixpoint holds_from (t : Table) (row : SqlRow) (current : bool)
    (terms : list (Connective * Like)) : bool :=
  match terms with
  | [] => current
  | (AND, term) :: rest =>
      holds_from t row (current && term_holds t row term)%bool rest
  | (OR, term) :: rest =>
      (current || holds_from t row (term_holds t row term) rest)%bool
  end.

(** Whether the WHERE clause keeps [row] of table [t]. *)
Definition where_holds (t : Table) (w : Where) (row : SqlRow) : bool :=
  match clause_terms w with
  | [] => true
  | (_, first) :: rest => holds_from t row (term_holds t row first) rest
  end.

(** [(column, descending)] *)
Definition buildOrderClause (sort : string) : string * bool :=
  if (sort =? "stars")%string then ("repostars", true)
  else if (sort =? "oldest")%string then ("updated_at", false)
  else ("updated_at", true).

Record ListArgs : Type := {
  arg_q : option string;
  arg_category : option string;
  arg_page : option Z;
  arg_pageSize : option Z;
  arg_sort : option string
}.

(** The destructuring defaults of [listSkills]. *)
Definition q_of (args : ListArgs) : string := or_keep (arg_q args) "".
Definition category_of (args : ListArgs) : string :=
  or_keep (arg_category args) "".
Definition page_of (args : ListArgs) : Z := or_keep (arg_page args) 1.
Definition pageSize_of (args : ListArgs) : Z :=
  or_keep (arg_pageSize args) 16.
Definition sort_of (args : ListArgs) : string :=
  or_keep (arg_sort args) "latest".

(** [Math.max(0, (page - 1) * pageSize)] *)
Definition offset_of (args : ListArgs) : Z :=
  Z.max 0 (js_times (js_minus (page_of args) 1) (pageSize_of args)).

Record QueryResult : Type := {
  items : list SkillRecord;
  total : Z;
  page : Z;
  pageSize : Z
}.

Record Summary : Type := {
  summary_total : Z;
  counts : Obj
}.

Definition listed_columns : list string :=
  ["id"; "skill_name"; "repostars"; "tagline"; "tags"; "tags_en";
   "categories"; "updated_at"].

(** The rows a list query matches, in the order it asks for, before the
    page is cut out. *)
Definition matching_rows (t : Table) (args : ListArgs) : list SqlRow :=
  order_by (declared t (fst (buildOrderClause (sort_of args))))
    (snd (buildOrderClause (sort_of args)))
    (filter
       (where_holds t (buildWhereClause (q_of args) (category_of args)))
       (tbl_rows t)).

(** Every column the page statement of a list query names. *)
Definition page_statement_columns (args : ListArgs) : list string :=
  (listed_columns
     ++ where_columns (buildWhereClause (q_of args) (category_of args))
     ++ [fst (buildOrderClause (sort_of args))])%list.

(** [rows.map((row, index) => f(row, index))] *)
Fixpoint map_indexed {A B : Type} (f : A -> nat -> B) (from : nat)
    (l : list A) : list B :=
  match l with
  | [] => []
  | x :: rest => f x from :: map_indexed f (S from) rest
  end.

(** The statement [getSkillByIdentifier] prepares for a decoded
    identifier: the column it compares and the value it binds. *)
Definition lookup_column (decoded : string) : string :=
  if all_digits decoded then "id" else "skill_name".

Definition lookup_bound (decoded : string) : Bound :=
  if all_digits decoded then bind_number (digits_number decoded)
  else BText decoded.

Section WithEngine.
Context `{E : Engine}.

(** Whether [WHERE column = ?] of that statement keeps [row]. *)
Definition lookup_holds (t : Table) (decoded : string) (row : SqlRow) : bool :=
  sql_equals (affinity t (lookup_column decoded))
    (column row (declared t (lookup_column decoded)))
    (lookup_bound decoded).

(** The rows the statement yields: [LIMIT 1] stops it at the first. *)
Definition lookup_rows (t : Table) (decoded : string) : list SqlRow :=
  limit_offset 1 0 (filter (lookup_holds t decoded) (tbl_rows t)).

End WithEngine.

Section WithUtils.
Context `{U : Utils} `{E : Engine}.

(** [listSkills] once [getDb] has resolved to [db]. The count statement
    is prepared and run first, then the page statement, which fails when
    its limit or its offset is not a 64-bit integer. *)
Definition list_from (cachedTable : option string) (db : Database)
    (args : ListArgs) : Result QueryResult :=
  let q := q_of args in
  let category := category_of args in
  let page := page_of args in
  let pageSize := pageSize_of args in
  let sort := sort_of args in
  match resolve_table cachedTable db with
  | None =>
      ret {| items := []; total := 0; page := page; pageSize := pageSize |}
  | Some table =>
      let clause := buildWhereClause q category in
      let orderClause := buildOrderClause sort in
      let offset := offset_of args in
      let* counted := prepare db table (where_columns clause) in
      let total :=
        Z.of_nat
          (List.length (filter (where_holds counted clause) (tbl_rows counted))) in
      let* t :=
        prepare db table
          (listed_columns ++ where_columns clause ++ [fst orderClause])%list in
      if (fits_int64 pageSize && fits_int64 offset)%bool then
        let rows :=
          rowsFromStatement (map (declared t) listed_columns)
            (limit_offset pageSize offset
               (order_by (declared t (fst orderClause)) (snd orderClause)
                  (filter (where_holds t clause) (tbl_rows t)))) in
        ret {| items := map_indexed normalizeSkill 0 rows;
               total := total; page := page; pageSize := pageSize |}
      else throw SqlError
  end.

(** [getSkillByIdentifier] once [getDb] has resolved to [db]; [None] in
    the result is [null]. *)
Definition get_from (cachedTable : option string) (db : Database)
    (identifier : option string) : Result (option SkillRecord) :=
  match resolve_table cachedTable db with
  | None => ret None
  | Some table =>
      let* decoded := decodeURIComponent (or_empty identifier) in
      let* t := prepare db table [lookup_column decoded] in
      let rows := rowsFromStatement (tbl_columns t) (lookup_rows t decoded) in
      match rows with
      | [] => ret None
      | first :: _ => ret (Some (normalizeSkill first 0))
      end
  end.

(** The body of [rows.forEach] in [getSkillSummary]. *)
Definition count_row (counts : Obj) (row : Obj) : Obj :=
  let category := toString (pickCategory (get row "categories")) in
  assign counts category (plus_one (js_or (lookup counts category) (JNum 0))).

(** [getSkillSummary] once [getDb] has resolved to [db]. *)
Definition summary_from (cachedTable : option string) (db : Database)
  : Result Summary :=
  match resolve_table cachedTable db with
  | None => ret {| summary_total := 0; counts := [] |}
  | Some table =>
      let* t := prepare db table ["categories"] in
      let rows :=
        rowsFromStatement [declared t "categories"] (tbl_rows t) in
      ret {| summary_total := Z.of_nat (List.length rows);
             counts := fold_left count_row rows [] |}
  end.

(** The exported operations, for a caller that is alone: [await getDb()],
    then the query on the table cached at that moment. *)
Definition after_getDb {A : Type} (cfg : Config) (w : World) (now done : Z)
    (st : Store) (k : option string -> Database -> Result A)
  : Store * Result A :=
  let '(st', r) := await_getDb cfg w now done st in
  (st', let* db := r in k (cachedTable st') db).

Definition listSkills (cfg : Config) (w : World) (now done : Z)
    (st : Store) (args : ListArgs) : Store * Result QueryResult :=
  after_getDb cfg w now done st (fun table db => list_from table db args).

Definition getSkillByIdentifier (cfg : Config) (w : World) (now done : Z)
    (st : Store) (identifier : option string)
  : Store * Result (option SkillRecord) :=
  after_getDb cfg w now done st
    (fun table db => get_from table db identifier).

Definition getSkillSummary (cfg : Config) (w : World) (now done : Z)
    (st : Store) : Store * Result Summary :=
  after_getDb cfg w now done st summary_from.

End WithUtils.

End Query.
Export Query.

(* ================================================================= *)
(** ** Histories of the store

    What happens to the store between two moments: a caller runs the
    synchronous part of [getDb], or the load in flight completes. *)

Module History.

Inductive Event : Type :=
| Request (cfg : Config) (now : Z)
| Completion (w : World) (done : Z).

Definition step (st : Store) (e : Event) : Store :=
  match e with
  | Request cfg now => fst (getDb cfg now st)
  | Completion w done =>
      match settle w done st with
      | Some (st', _) => st'
      | None => st
      end
  end.

(** The store after a history that starts when the module is loaded. *)
Definition run (events : list Event) : Store :=
  fold_left step events initial_store.

(** The cached table name is the one discovered in the cached dataset, and
    there is none without a dataset. *)
Definition consistent (st : Store) : Prop :=
  match cachedDb st with
  | Some db => exists t, cachedTable st = Some t /\ selectTableName db = Some t
  | None => cachedTable st = None
  end.

End History.
Export History.

(* ================================================================= *)
(** ** Sample data

    The instances on which the properties below are exercised. *)

Module Samples.

Fixpoint split_on (sep : ascii) (current : string) (s : string) : list string :=
  match s with
  | EmptyString => [current]
  | String a rest =>
      if Ascii.eqb a sep then current :: split_on sep "" rest
      else split_on sep (current ++ String a "") rest
  end.

Fixpoint drop_spaces (l : list ascii) : list ascii :=
  match l with
  | a :: rest => if Ascii.eqb a " " then drop_spaces rest else l
  | [] => []
  end.

Definition trim (s : string) : string :=
  string_of_list_ascii
    (rev (drop_spaces (rev (drop_spaces (list_ascii_of_string s))))).

(** Modelled from the spec: [parseArrayValue] of [../utils], which is not
    among the store's sources, on its delimited-string input: the trimmed
    non-empty pieces of a comma-separated text, in order; no pieces for
    anything else. The serialized-list input is left out. *)
Definition delimited (v : JsVal) : list JsVal :=
  match v with
  | JStr s =>
      map JStr (filter nonempty (map trim (split_on "," "" s)))
  | _ => []
  end.

(** Modelled from the spec: [pickCategory] of [../utils], which is not
    among the store's sources: the first parsed category; the fallback for
    a value with no category is not specified and is a fixed text here. *)
Definition first_category (v : JsVal) : JsVal :=
  match delimited v with
  | c :: _ => c
  | [] => JStr "uncategorized"
  end.

Definition sample_utils : Utils :=
  {| parseArrayValue := delimited; pickCategory := first_category |}.

(** An engine for the examples: a REAL that is an integer is written with
    one decimal, and only a run of digits reads as a number. *)
Definition sample_engine : Engine :=
  {| real_text := fun r =>
       match r with
       | Some n => decimal n ++ ".0"
       | None => "Inf"
       end;
     numeric_value := fun s =>
       if all_digits s then IntegerValue (digits_value s) else NotNumeric |}.

Definition empty_table (name : string) : Table :=
  {| tbl_name := name; tbl_columns := ["id"]; tbl_typed := [];
     tbl_rows := [] |}.

(** The tables of P4. *)
Definition p4_db : Database :=
  {| db_tables := [empty_table "skill"; empty_table "misc"; empty_table "skills"];
     db_others := [("index", "misc_idx")] |}.

(** A dataset whose first table name is the empty string. *)
Definition unnamed_db : Database :=
  {| db_tables := [empty_table "misc"; empty_table ""]; db_others := [] |}.

Definition no_table_db : Database :=
  {| db_tables := [empty_table "sqlite_sequence"]; db_others := [] |}.

Definition skill_columns : list string :=
  ["id"; "skill_name"; "repostars"; "tagline"; "tags"; "tags_en";
   "categories"; "updated_at"; "description"; "description_zh";
   "description_en"; "use_case"; "use_case_en"].

Definition skill_row (id : Z) (name categories : string) (stars : Z)
    (updated : string) : SqlRow :=
  [("id", SInt id); ("skill_name", SText name); ("repostars", SInt stars);
   ("tagline", SNull); ("tags", SText "a,b,c"); ("tags_en", SNull);
   ("categories", SText categories); ("updated_at", SText updated);
   ("description", SNull); ("description_zh", SNull);
   ("description_en", SNull); ("use_case", SNull);
   ("use_case_en", SText ("how to use " ++ name))].

(** [id] and [repostars] are declared INTEGER, the other columns TEXT. *)
Definition skill_types : list (string * Affinity) :=
  map (fun c =>
         (c, if ((c =? "id") || (c =? "repostars"))%string
             then NumericAffinity else TextAffinity))
    skill_columns.

Definition skills_table (rows : list SqlRow) : Database :=
  {| db_tables :=
       [{| tbl_name := "skills"; tbl_columns := skill_columns;
           tbl_typed := skill_types; tbl_rows := rows |}];
     db_others := [] |}.

(** A table whose [ID] column is declared TEXT, in capitals. *)
Definition text_id_table : Table :=
  {| tbl_name := "skills"; tbl_columns := ["ID"; "skill_name"];
     tbl_typed := [("ID", TextAffinity); ("skill_name", TextAffinity)];
     tbl_rows := [[("ID", SText "2"); ("skill_name", SText "beta")];
                  [("ID", SText "02"); ("skill_name", SText "gamma")]] |}.

Definition text_ids : Database :=
  {| db_tables := [text_id_table]; db_others := [] |}.


(** The two rows of the end-to-end example. *)
Definition two_skills : Database :=
  skills_table
    [skill_row 1 "alpha" "coding" 5 "2024-01-01";
     skill_row 2 "beta" "coding" 50 "2024-02-01"].

(** Twenty-five rows, ids 1 to 25. *)
Definition twenty_five : Database :=
  skills_table
    (map (fun n => skill_row (Z.of_nat n) ("skill" ++ decimal (Z.of_nat n))
                     "coding" (Z.of_nat n) "2024-01-01")
       (seq 1 25)).

(** One row whose category is the text [constructor]. *)
Definition constructor_skill : Database :=
  skills_table [skill_row 1 "builder" "constructor" 0 "2024-01-01"].

Definition local_config : Config :=
  {| SKILL_DB_URL := None; NEXT_PUBLIC_SKILL_DB_URL := None;
     SKILL_DB_REVALIDATE_MS := None;
     DEFAULT_DB_PATH := "/app/public/skill.db" |}.

Definition remote_url : string := "https://example.com/skill.db".

Definition remote_config : Config :=
  {| SKILL_DB_URL := Some remote_url; NEXT_PUBLIC_SKILL_DB_URL := None;
     SKILL_DB_REVALIDATE_MS := None;
     DEFAULT_DB_PATH := "/app/public/skill.db" |}.

Definition ready_store (db : Database) (m : Meta) : Store :=
  {| cachedDb := Some db; cachedTable := Some "skills"; cachedMeta := m;
     loadingPromise := None; closed := []; promises := 1 |}.

(** A dataset loaded from the local file at time 1000. *)
Definition local_ready : Store :=
  ready_store two_skills
    {| source := "/app/public/skill.db"; etag := ""; lastModified := "";
       lastChecked := 1000; mtimeMs := 500 |}.

(** A dataset loaded from the remote url at time 1000, with validators. *)
Definition remote_ready : Store :=
  ready_store two_skills
    {| source := remote_url; etag := "v1";
       lastModified := "Mon, 01 Jan 2024 00:00:00 GMT";
       lastChecked := 1000; mtimeMs := 0 |}.

(** The same, from a server that sent a date but no entity tag. *)
Definition remote_ready_dated : Store :=
  ready_store two_skills
    {| source := remote_url; etag := "";
       lastModified := "Mon, 01 Jan 2024 00:00:00 GMT";
       lastChecked := 1000; mtimeMs := 0 |}.

(** Nothing can be reached: every request, [stat] and read rejects. *)
Definition offline : World :=
  {| fetch := fun _ _ => None; stat := fun _ => None;
     readFile := fun _ => None; sqlite_open := fun _ => None |}.

Definition reply (code : Z) (tag date : option string) : Response :=
  {| status := code; header_etag := tag; header_last_modified := date;
     body := [83; 81; 76] |}.

(** A server that answers every request by [head] or [get] according to
    its method; the bytes it serves open as [db]. *)
Definition server (head get : option Response) (db : option Database)
  : World :=
  {| fetch := fun _ request =>
                match method request with
                | HEAD => head
                | GET => get
                end;
     stat := fun _ => None;
     readFile := fun _ => None;
     sqlite_open := fun _ => db |}.

(** The file is there, unchanged since time 500, and holds [db]. *)
Definition disk (db : Database) : World :=
  {| fetch := fun _ _ => None; stat := fun _ => Some 500;
     readFile := fun _ => Some [83; 81; 76];
     sqlite_open := fun _ => Some db |}.

(** The names a list query over [two_skills] returns, in order. *)
Definition listed (args : ListArgs) : list JsVal :=
  match list_from (U := sample_utils) (Some "skills") two_skills args with
  | inr result => map skill_name (items result)
  | inl _ => []
  end.

End Samples.
Export Samples.

(* ================================================================= *)
(** * Properties *)


(* ----------------------------------------------------------------- *)
(** ** Strings *)

Lemma string_of_uint_nonempty (d : Decimal.uint) :
  d <> Decimal.Nil -> NilEmpty.string_of_uint d <> "".
Proof. destruct d; simpl; congruence. Qed.

Lemma decimal_nonempty (z : Z) : decimal z <> "".
Proof.
  unfold decimal. destruct z as [|p|p]; simpl; try discriminate.
  apply string_of_uint_nonempty, Unsigned.to_uint_nonnil.
Qed.

Lemma append_empty (a b : string) : (a ++ b)%string = "" -> a = "" /\ b = "".
Proof. destruct a; simpl; [auto | discriminate]. Qed.

Lemma encode_bytes_empty (s : string) : encode_bytes s = "" -> s = "".
Proof.
  destruct s as [|a s]; simpl; [reflexivity|].
  intros H. apply append_empty in H. destruct H as [H _].
  destruct (uri_unreserved a); discriminate.
Qed.

Lemma nonempty_true (s : string) : nonempty s = true <-> s <> "".
Proof.
  unfold nonempty. rewrite negb_true_iff. apply String.eqb_neq.
Qed.

Lemma string_compare_le_trans (a b c : string) :
  String.compare a b <> Gt -> String.compare b c <> Gt ->
  String.compare a c <> Gt.
Proof.
  revert b c. induction a as [|x a IH]; intros [|y b] [|z c]; simpl;
    try congruence.
  unfold Ascii.compare.
  destruct (N.compare_spec (N_of_ascii x) (N_of_ascii y)) as [Hxy|Hxy|Hxy];
    destruct (N.compare_spec (N_of_ascii y) (N_of_ascii z)) as [Hyz|Hyz|Hyz];
    destruct (N.compare_spec (N_of_ascii x) (N_of_ascii z)) as [Hxz|Hxz|Hxz];
    try congruence; try lia.
  apply IH.
Qed.

Lemma string_leb_trans (a b c : string) :
  String.leb a b = true -> String.leb b c = true -> String.leb a c = true.
Proof.
  unfold String.leb. intros Hab Hbc.
  assert (H : String.compare a c <> Gt).
  { apply (string_compare_le_trans a b c).
    - destruct (String.compare a b); congruence.
    - destruct (String.compare b c); congruence. }
  destruct (String.compare a c); congruence.
Qed.

(* ----------------------------------------------------------------- *)
(** ** The stable sort *)

Section SortFacts.
Context {A : Type} (before : A -> A -> bool).

Lemma insert_by_In (x y : A) (l : list A) :
  In x (insert_by before y l) <-> x = y \/ In x l.
Proof.
  induction l as [|z l IH]; simpl.
  - intuition.
  - destruct (before y z); simpl; rewrite ?IH; intuition.
Qed.

Lemma sort_by_In (x : A) (l : list A) : In x (sort_by before l) <-> In x l.
Proof.
  induction l as [|y l IH]; simpl; [reflexivity|].
  rewrite insert_by_In, IH. intuition.
Qed.

Lemma insert_by_length (y : A) (l : list A) :
  List.length (insert_by before y l) = S (List.length l).
Proof.
  induction l as [|z l IH]; simpl; [reflexivity|].
  destruct (before y z); simpl; [reflexivity | now rewrite IH].
Qed.

Lemma sort_by_length (l : list A) :
  List.length (sort_by before l) = List.length l.
Proof.
  induction l as [|y l IH]; simpl; [reflexivity|].
  now rewrite insert_by_length, IH.
Qed.

Hypothesis before_total : forall a b, before a b = true \/ before b a = true.
Hypothesis before_trans :
  forall a b c, before a b = true -> before b c = true -> before a c = true.

Lemma insert_by_ordered (y : A) (l : list A) :
  ordered before l -> ordered before (insert_by before y l).
Proof.
  unfold ordered. induction l as [|z l IH]; simpl; intros Hl.
  - constructor; constructor.
  - inversion Hl as [|? ? Hrest Hz]; subst.
    destruct (before y z) eqn:Hyz.
    + constructor; [assumption|]. constructor; [assumption|].
      rewrite Forall_forall in *. eauto.
    + constructor; [auto|].
      rewrite Forall_forall in *. intros u Hu.
      apply insert_by_In in Hu. destruct Hu as [->|Hu]; [|auto].
      destruct (before_total y z); congruence.
Qed.

Lemma sort_by_ordered (l : list A) : ordered before (sort_by before l).
Proof.
  induction l as [|y l IH]; simpl.
  - constructor.
  - now apply insert_by_ordered.
Qed.

Lemma sort_by_head_least (l : list A) (first : A) (rest : list A) :
  sort_by before l = first :: rest ->
  forall x, In x l -> before first x = true.
Proof.
  intros Hs x Hx. apply sort_by_In in Hx. rewrite Hs in Hx.
  pose proof (sort_by_ordered l) as Ho. unfold ordered in Ho.
  rewrite Hs in Ho.
  inversion Ho as [|? ? _ Hall]; subst. destruct Hx as [->|Hx].
  - destruct (before_total x x); assumption.
  - rewrite Forall_forall in Hall. auto.
Qed.
End SortFacts.

(* ----------------------------------------------------------------- *)
(** ** Row normalization *)

(** C1 (as amended). Every scalar field of the normalized record other than
    [id], [identifier] and [category] takes the first truthy value among a
    fixed list of row keys, else the empty string, or zero for [repostars].
    The list is the field's snake_case key then its camelCase key, followed
    by an alias for [skill_name], [repostars] and [description_zh]; it is
    the one key of [tagline]; for [fromRepo] and [skillPath] the camelCase
    key is read before the snake_case one; [description] reads the two keys
    of [description_zh] before its own. [id] is the row's [id] unless that
    is null or undefined, and the identifier then; [identifier] is the
    string of the row's [id] when that is present, else the URI encoding of
    the resolved [skill_name] when truthy, else the position plus one;
    [category] is the first parsed category when truthy, else what
    [pickCategory] makes of the row's [categories]. The array fields parse
    the value under [tags], under [tags_en] then [tagsEn], and under
    [categories]. *)
Theorem C1_key_precedence `{U : Utils} (row : Obj) (index : nat) :
  (forall f, field_value f (normalizeSkill row index)
             = first_truthy row (precedence f) (default_value f))
  /\ (forall f, key_kinds f
                = match f with
                  | F_fromRepo | F_skillPath => [CamelCase; SnakeCase]
                  | F_description => [Alias; Alias; SnakeCase]
                  | F_tagline => [SnakeCase]
                  | F_skill_name | F_repostars | F_description_zh =>
                      [SnakeCase; CamelCase; Alias]
                  | _ => [SnakeCase; CamelCase]
                  end)
  /\ (forall f, default_value f
                = match f with
                  | F_repostars => JNum 0
                  | _ => JStr ""
                  end)
  /\ id (normalizeSkill row index)
     = js_nullish (get row "id") (JStr (identifier (normalizeSkill row index)))
  /\ identifier (normalizeSkill row index)
     = (if is_present (get row "id") then toString (get row "id")
        else if truthy (skill_name (normalizeSkill row index))
             then encodeURIComponent (skill_name (normalizeSkill row index))
             else decimal (Z.of_nat index + 1))
  /\ category (normalizeSkill row index)
     = js_or (first_element (parseArrayValue (get row "categories")))
         (pickCategory (get row "categories"))
  /\ tags (normalizeSkill row index) = parseArrayValue (get row "tags")
  /\ tags_en (normalizeSkill row index)
     = parseArrayValue (first_truthy row ["tags_en"] (get row "tagsEn"))
  /\ categories (normalizeSkill row index)
     = parseArrayValue (get row "categories").
Proof.
  split; [intros f; destruct f; reflexivity|].
  split; [intros f; destruct f; reflexivity|].
  split; [intros f; destruct f; reflexivity|].
  repeat split.
Qed.

(** A row holding both spellings of the repository column: the record takes
    the camelCase one, where snake_case first would give the other. *)
Lemma C1_camel_case_read_first :
  let row := [("fromRepo", JStr "a/b"); ("from_repo", JStr "c/d")] in
  field_value F_fromRepo (normalizeSkill (U := sample_utils) row 0) = JStr "a/b"
  /\ first_truthy row (snake_first_keys F_fromRepo) (default_value F_fromRepo)
     = JStr "c/d"
  /\ field_value F_fromRepo (normalizeSkill (U := sample_utils) row 0)
     <> first_truthy row (snake_first_keys F_fromRepo) (default_value F_fromRepo).
Proof. repeat split. discriminate. Qed.

Lemma truthy_primitive_nonempty (v : JsVal) :
  truthy v = true -> is_primitive v = true -> toString v <> "".
Proof.
  destruct v; simpl; try discriminate.
  - intros _ _. apply decimal_nonempty.
  - intros H _. apply negb_true_iff, String.eqb_neq in H. exact H.
Qed.

(** C2 (as amended). The identifier is the string form of [id] when [id] is
    neither null nor undefined; otherwise the URI encoding of the resolved
    [skill_name] when that is truthy; otherwise the decimal of the position
    plus one. It is non-empty whenever [id] is a number, whenever [id] is
    present with a non-empty string form, and whenever [id] is absent and
    [skill_name] resolves to a primitive value. *)
Theorem C2_identifier `{U : Utils} (row : Obj) (index : nat) :
  skill_name (normalizeSkill row index)
  = first_truthy row ["skill_name"; "skillName"; "name"] (JStr "")
  /\ (is_present (get row "id") = true ->
      identifier (normalizeSkill row index) = toString (get row "id"))
  /\ (is_present (get row "id") = false ->
      truthy (skill_name (normalizeSkill row index)) = true ->
      identifier (normalizeSkill row index)
      = encodeURIComponent (skill_name (normalizeSkill row index)))
  /\ (is_present (get row "id") = false ->
      truthy (skill_name (normalizeSkill row index)) = false ->
      identifier (normalizeSkill row index) = decimal (Z.of_nat index + 1))
  /\ (forall z, get row "id" = JNum z ->
      identifier (normalizeSkill row index) = decimal z
      /\ identifier (normalizeSkill row index) <> "")
  /\ (is_present (get row "id") = true -> toString (get row "id") <> "" ->
      identifier (normalizeSkill row index) <> "")
  /\ (is_present (get row "id") = false ->
      is_primitive (skill_name (normalizeSkill row index)) = true ->
      identifier (normalizeSkill row index) <> "").
Proof.
  split; [reflexivity|].
  cbn [identifier skill_name normalizeSkill].
  set (name := js_or (get row "skill_name") _).
  split; [intros H; now rewrite H|].
  split; [intros H Ht; now rewrite H, Ht|].
  split; [intros H Ht; now rewrite H, Ht|].
  split.
  { intros z Hz. rewrite Hz. simpl. split; [reflexivity | apply decimal_nonempty]. }
  split; [intros H Hs; now rewrite H|].
  intros H Hp. rewrite H.
  destruct (truthy name) eqn:Ht.
  - unfold encodeURIComponent. intros He. apply encode_bytes_empty in He.
    now apply (truthy_primitive_nonempty name).
  - apply decimal_nonempty.
Qed.

(** A row whose [id] is the empty text: the identifier is empty. *)
Lemma C2_empty_id_gives_empty_identifier :
  let row := getAsObject ["id"; "skill_name"]
               [("id", SText ""); ("skill_name", SText "alpha")] in
  is_present (get row "id") = true
  /\ identifier (normalizeSkill (U := sample_utils) row 0) = "".
Proof. split; reflexivity. Qed.

Lemma C2_identifier_witness :
  identifier (normalizeSkill (U := sample_utils) [("id", JNum 7)] 0) = "7"
  /\ identifier (normalizeSkill (U := sample_utils)
                   [("id", JNull); ("skill_name", JStr "Foo Bar")] 0)
     = "Foo%20Bar"
  /\ identifier (normalizeSkill (U := sample_utils) [("id", JNull)] 4) = "5"
  /\ identifier (normalizeSkill (U := sample_utils) [("id", JNum 0)] 0) <> ""
  /\ identifier (normalizeSkill (U := sample_utils) [("id", JStr "x1")] 0) <> ""
  /\ identifier (normalizeSkill (U := sample_utils) [("name", JStr "n")] 0) <> "".
Proof.
  split.
  { destruct (C2_identifier (U := sample_utils) [("id", JNum 7)] 0)
      as (_ & H & _).
    rewrite H; reflexivity. }
  split.
  { destruct (C2_identifier (U := sample_utils)
                [("id", JNull); ("skill_name", JStr "Foo Bar")] 0)
      as (_ & _ & H & _).
    rewrite H; reflexivity. }
  split.
  { destruct (C2_identifier (U := sample_utils) [("id", JNull)] 4)
      as (_ & _ & _ & H & _).
    rewrite H; reflexivity. }
  split.
  { destruct (C2_identifier (U := sample_utils) [("id", JNum 0)] 0)
      as (_ & _ & _ & _ & H & _).
    exact (proj2 (H 0 eq_refl)). }
  split.
  { destruct (C2_identifier (U := sample_utils) [("id", JStr "x1")] 0)
      as (_ & _ & _ & _ & _ & H & _).
    apply H; [reflexivity | discriminate]. }
  destruct (C2_identifier (U := sample_utils) [("name", JStr "n")] 0)
    as (_ & _ & _ & _ & _ & _ & H).
  apply H; reflexivity.
Defined.

(* ----------------------------------------------------------------- *)
(** ** Table discovery *)

Lemma includes_In (names : list string) (name : string) :
  includes names name = true <-> In name names.
Proof.
  unfold includes. rewrite existsb_exists. split.
  - intros [x [Hx Heq]]. apply String.eqb_eq in Heq. now subst.
  - intros H. exists name. split; [assumption | apply String.eqb_refl].
Qed.

Lemma includes_not_In (names : list string) (name : string) :
  ~ In name names -> includes names name = false.
Proof.
  intros H. destruct (includes names name) eqn:E; [|reflexivity].
  apply includes_In in E. contradiction.
Qed.

Lemma table_names_In (db : Database) (n : string) :
  In n (table_names db) <->
  In ("table", n) (sqlite_master db) /\ like_match "sqlite_%" n = false.
Proof.
  unfold table_names. rewrite sort_by_In, in_map_iff. split.
  - intros [[ty nm] [Heq Hin]]. simpl in Heq. subst nm.
    apply filter_In in Hin. destruct Hin as [Hin Hc]. cbn [fst snd] in Hc.
    apply andb_true_iff in Hc. destruct Hc as [Hty Hlike].
    apply String.eqb_eq in Hty. subst ty.
    apply negb_true_iff in Hlike. auto.
  - intros [Hin Hlike]. exists ("table", n). split; [reflexivity|].
    apply filter_In. split; [assumption|]. cbn [fst snd].
    now rewrite Hlike, String.eqb_refl.
Qed.

(** C3 (as amended). Table discovery over the non-system table names, in
    lexicographic order, returns [skills] when that name is present, else
    [skill] when present, else the lexicographically first name provided that
    name is not the empty string; it reports no table when there is no name
    or when the first name is the empty string, and the load then fails with
    the no-table error. For the tables skill, misc, skills it selects
    [skills]. *)
Theorem C3_table_discovery (db : Database) :
  (forall n, In n (table_names db) <->
             In ("table", n) (sqlite_master db)
             /\ like_match "sqlite_%" n = false)
  /\ (In "skills" (table_names db) -> selectTableName db = Some "skills")
  /\ (~ In "skills" (table_names db) -> In "skill" (table_names db) ->
      selectTableName db = Some "skill")
  /\ (~ In "skills" (table_names db) -> ~ In "skill" (table_names db) ->
      forall first rest, table_names db = first :: rest ->
        (forall n, In n (table_names db) -> String.leb first n = true)
        /\ (first <> "" -> selectTableName db = Some first)
        /\ (first = "" -> selectTableName db = None))
  /\ (table_names db = [] -> selectTableName db = None)
  /\ (selectTableName db = None ->
      forall w buffer meta st, sqlite_open w buffer = Some db ->
        buildDbFromBuffer w buffer meta st = (st, throw NoTableFound))
  /\ selectTableName p4_db = Some "skills".
Proof.
  unfold selectTableName, choose_table.
  split; [apply table_names_In|].
  split.
  { intros H. apply includes_In in H. now rewrite H. }
  split.
  { intros H1 H2. rewrite (includes_not_In _ _ H1).
    apply includes_In in H2. now rewrite H2. }
  split.
  { intros H1 H2 first rest Hn.
    rewrite (includes_not_In _ _ H1), (includes_not_In _ _ H2), Hn.
    split.
    - intros n Hin. unfold table_names in Hn.
      eapply sort_by_head_least.
      + apply String.leb_total.
      + apply string_leb_trans.
      + exact Hn.
      + rewrite <- Hn in Hin. unfold table_names in Hin.
        now apply sort_by_In in Hin.
    - split; intros Hf.
      + apply nonempty_true in Hf. unfold nonempty in Hf. simpl. now rewrite Hf.
      + subst first. reflexivity. }
  split.
  { intros Hn. rewrite Hn. reflexivity. }
  split.
  { intros Hnone w buffer meta st Hopen. unfold buildDbFromBuffer.
    rewrite Hopen. unfold selectTableName, choose_table. now rewrite Hnone. }
  reflexivity.
Qed.

(** In a dataset whose tables are named misc and (the empty string), the
    name list is not empty and holds neither skills nor skill, yet no table is
    selected, and not the lexicographically first name. *)
Lemma C3_empty_name_selects_nothing :
  table_names unnamed_db = [""; "misc"]
  /\ selectTableName unnamed_db = None
  /\ selectTableName unnamed_db <> Some ""
  /\ forall w meta st, sqlite_open w [83; 81; 76] = Some unnamed_db ->
       buildDbFromBuffer w [83; 81; 76] meta st = (st, throw NoTableFound).
Proof.
  split; [reflexivity|]. split; [reflexivity|]. split; [discriminate|].
  intros w meta st H. unfold buildDbFromBuffer. now rewrite H.
Qed.

Lemma C3_table_discovery_witness :
  selectTableName two_skills = Some "skills"
  /\ selectTableName (Build_Database [empty_table "skill"; empty_table "misc"] [])
     = Some "skill"
  /\ selectTableName (Build_Database [empty_table "zeta"; empty_table "misc"] [])
     = Some "misc"
  /\ selectTableName unnamed_db = None
  /\ selectTableName no_table_db = None
  /\ buildDbFromBuffer (disk no_table_db) [83; 81; 76]
       (validators_patch (echo initial_meta)) initial_store
     = (initial_store, throw NoTableFound).
Proof.
  split.
  { destruct (C3_table_discovery two_skills) as (_ & H & _).
    apply H. vm_compute. auto. }
  split.
  { destruct (C3_table_discovery
                (Build_Database [empty_table "skill"; empty_table "misc"] []))
      as (_ & _ & H & _).
    apply H.
    - vm_compute. intros [H1|[H1|[]]]; discriminate.
    - vm_compute. auto. }
  split.
  { destruct (C3_table_discovery
                (Build_Database [empty_table "zeta"; empty_table "misc"] []))
      as (_ & _ & _ & H & _).
    refine (proj1 (proj2 (H _ _ "misc" ["zeta"] eq_refl)) _).
    - vm_compute. intros [H1|[H1|[]]]; discriminate.
    - vm_compute. intros [H1|[H1|[]]]; discriminate.
    - discriminate. }
  split.
  { destruct (C3_table_discovery unnamed_db) as (_ & _ & _ & H & _).
    refine (proj2 (proj2 (H _ _ "" ["misc"] eq_refl)) eq_refl).
    - vm_compute. intros [H1|[H1|[]]]; discriminate.
    - vm_compute. intros [H1|[H1|[]]]; discriminate. }
  split.
  { destruct (C3_table_discovery no_table_db) as (_ & _ & _ & _ & H & _).
    apply H. reflexivity. }
  destruct (C3_table_discovery no_table_db) as (_ & _ & _ & _ & _ & H & _).
  apply H; reflexivity.
Defined.

(* ----------------------------------------------------------------- *)
(** ** Failures while a dataset is cached *)

(** C4 (as amended). When the conditional fetch of a remote revalidation
    fails while a dataset from the same url is cached, the load records the
    attempt time, leaves source, etag, last-modified and mtime as they were,
    and resolves with the cached dataset: [getDb] does not fail. With nothing
    cached, a failed download leaves the store as it was and the error
    reaches the caller. A local load whose [stat] fails leaves the store as
    it was and fails, whatever is cached. *)
Theorem C4_failed_revalidation_is_absorbed
    (w : World) (dbUrl : string) (now : Z) (st : Store) :
  (forall db error,
      cachedDb st = Some db -> source (cachedMeta st) = dbUrl ->
      snd (revalidateRemoteDb w dbUrl (cachedMeta st)) = throw error ->
      loadRemoteDb w dbUrl now st
      = (with_meta st (touch (cachedMeta st) now), ret db)
      /\ cachedDb (fst (loadRemoteDb w dbUrl now st)) = cachedDb st
      /\ cachedTable (fst (loadRemoteDb w dbUrl now st)) = cachedTable st
      /\ etag (cachedMeta (fst (loadRemoteDb w dbUrl now st)))
         = etag (cachedMeta st)
      /\ lastModified (cachedMeta (fst (loadRemoteDb w dbUrl now st)))
         = lastModified (cachedMeta st)
      /\ lastChecked (cachedMeta (fst (loadRemoteDb w dbUrl now st))) = now
      /\ forall cfg done,
           getDbSource cfg = {| type := remote; key := dbUrl |} ->
           loadingPromise st = None -> needsCheck cfg now st = true ->
           snd (await_getDb cfg w now done st) = ret db)
  /\ (cachedDb st = None ->
      (fetch w dbUrl plain_get = None ->
       loadRemoteDb w dbUrl now st = (st, throw NetworkError))
      /\ (forall response, fetch w dbUrl plain_get = Some response ->
          ok response = false ->
          loadRemoteDb w dbUrl now st
          = (st, throw (FetchFailed (status response)))))
  /\ (forall dbPath, stat w dbPath = None ->
      loadLocalDb w dbPath now st = (st, throw SourceUnavailable)).
Proof.
  split.
  - intros db error Hdb Hsrc Hfail.
    assert (Hload : loadRemoteDb w dbUrl now st
                    = (with_meta st (touch (cachedMeta st) now), ret db)).
    { unfold loadRemoteDb. rewrite Hdb, Hsrc, String.eqb_refl.
      rewrite Hfail. cbn. now rewrite Hdb. }
    rewrite Hload. cbn. repeat split; try assumption.
    intros cfg done Hcfg Hnone Hneeds.
    unfold await_getDb, getDb. rewrite Hdb, Hneeds, Hnone.
    unfold complete, run_load. cbn [load_source load_started].
    rewrite Hcfg. cbn [type key].
    assert (Hsame : loadRemoteDb w dbUrl now
                      (with_loading st
                         (Some {| promise_id := promises st;
                                  load_source := {| type := remote; key := dbUrl |};
                                  load_started := now |})
                         (S (promises st)))
                    = (with_meta
                         (with_loading st
                            (Some {| promise_id := promises st;
                                     load_source := {| type := remote; key := dbUrl |};
                                     load_started := now |})
                            (S (promises st)))
                         (touch (cachedMeta st) now), ret db)).
    { unfold loadRemoteDb. cbn [cachedDb cachedMeta with_loading].
      rewrite Hdb, Hsrc, String.eqb_refl.
      rewrite Hfail. cbn. now rewrite Hdb. }
    rewrite Hsame. reflexivity.
  - split.
    + intros Hnone. unfold loadRemoteDb, download. rewrite Hnone. split.
      * intros Hf. now rewrite Hf.
      * intros response Hf Hok. now rewrite Hf, Hok.
    + intros dbPath Hstat. unfold loadLocalDb. now rewrite Hstat.
Qed.

(** A revalidation that downloads bytes which do not open as a database:
    the failure of the rebuild is not caught, the attempt time is not
    recorded, and the caller receives the error although a dataset is
    cached. *)
Lemma rebuild_failure_escapes_catch :
  loadRemoteDb (server None (Some (reply 200 (Some "v2") None)) None)
    remote_url 20000000 remote_ready
  = (remote_ready, throw ParseError).
Proof. reflexivity. Qed.

(** A local source: the dataset was loaded from the file, the interval has
    elapsed, and the file can no longer be read. The load fails and the
    caller of [getDb] receives the error although the dataset is cached. *)
Lemma C4_local_failure_reaches_caller :
  cachedDb local_ready = Some two_skills
  /\ source (cachedMeta local_ready) = key (getDbSource local_config)
  /\ loadLocalDb offline "/app/public/skill.db" 20000000 local_ready
     = (local_ready, throw SourceUnavailable)
  /\ snd (await_getDb local_config offline 20000000 20000001 local_ready)
     = throw SourceUnavailable.
Proof. repeat split. Qed.

Lemma C4_failed_revalidation_is_absorbed_witness :
  loadRemoteDb (server None (Some (reply 503 None None)) None) remote_url
    20000000 remote_ready
  = (with_meta remote_ready (touch (cachedMeta remote_ready) 20000000),
     ret two_skills)
  /\ snd (await_getDb remote_config
            (server None (Some (reply 503 None None)) None)
            20000000 20000001 remote_ready)
     = ret two_skills
  /\ loadRemoteDb offline remote_url 5 initial_store
     = (initial_store, throw NetworkError)
  /\ loadRemoteDb (server None (Some (reply 404 None None)) None) remote_url 5
       initial_store
     = (initial_store, throw (FetchFailed 404))
  /\ loadLocalDb offline "/app/public/skill.db" 20000000 local_ready
     = (local_ready, throw SourceUnavailable).
Proof.
  split.
  { destruct (C4_failed_revalidation_is_absorbed
                (server None (Some (reply 503 None None)) None) remote_url
                20000000 remote_ready) as (H & _).
    apply (H two_skills (FetchFailed 503)); reflexivity. }
  split.
  { destruct (C4_failed_revalidation_is_absorbed
                (server None (Some (reply 503 None None)) None) remote_url
                20000000 remote_ready) as (H & _).
    destruct (H two_skills (FetchFailed 503) eq_refl eq_refl eq_refl)
      as (_ & _ & _ & _ & _ & _ & Hget).
    apply Hget; reflexivity. }
  split.
  { destruct (C4_failed_revalidation_is_absorbed offline remote_url 5
                initial_store) as (_ & H & _).
    apply H; reflexivity. }
  split.
  { destruct (C4_failed_revalidation_is_absorbed
                (server None (Some (reply 404 None None)) None) remote_url 5
                initial_store) as (_ & H & _).
    destruct (H eq_refl) as (_ & H2).
    apply (H2 (reply 404 None None)); reflexivity. }
  destruct (C4_failed_revalidation_is_absorbed offline remote_url 20000000
              local_ready) as (_ & _ & H).
  apply H. reflexivity.
Defined.

(* ----------------------------------------------------------------- *)
(** ** Remote revalidation *)

Lemma ok_not_304 (r : Response) : ok r = true -> (status r =? 304) = false.
Proof.
  intros Hok. apply Z.eqb_neq. intros Hs. unfold ok in Hok.
  rewrite Hs in Hok. discriminate.
Qed.

Lemma validators_match_equal (r : Response) (cached : Meta) :
  validators_match (response_validators r) cached = true
  <-> validators_equal r cached.
Proof.
  unfold validators_match, validators_equal, response_validators.
  cbn [v_etag v_lastModified].
  rewrite orb_true_iff, !andb_true_iff, !nonempty_true, !String.eqb_eq.
  reflexivity.
Qed.

(** C5 (as amended). A HEAD 304 reports not-modified with the cached
    validators, and a HEAD 2xx whose returned etag is non-empty and equal to
    the cached one, or whose returned last-modified is non-empty and equal
    to the cached one, reports not-modified with the returned validators;
    both after the HEAD alone. Every other outcome of the HEAD, a rejected
    request among them, is followed by the conditional GET: a rejected GET
    fails, a GET 304 reports not-modified with the cached validators, any
    other GET response outside 2xx fails with its status, and a GET 2xx
    yields the body with the etag and last-modified of the response. *)
Theorem C5_revalidation_protocol (w : World) (dbUrl : string) (cached : Meta) :
  (forall head, fetch w dbUrl (conditional HEAD cached) = Some head ->
   status head = 304 ->
   revalidateRemoteDb w dbUrl cached
   = ([conditional HEAD cached], ret (NotModified (echo cached))))
  /\ (forall head, fetch w dbUrl (conditional HEAD cached) = Some head ->
      ok head = true ->
      validators_equal head cached ->
      revalidateRemoteDb w dbUrl cached
      = ([conditional HEAD cached],
         ret (NotModified
                {| v_etag := or_empty (header_etag head);
                   v_lastModified := or_empty (header_last_modified head) |})))
  /\ (forall head, fetch w dbUrl (conditional HEAD cached) = Some head ->
      status head = 304 \/ (ok head = true /\ validators_equal head cached)
      \/ head_inconclusive (Some head) cached)
  /\ (head_inconclusive (fetch w dbUrl (conditional HEAD cached)) cached ->
      fst (revalidateRemoteDb w dbUrl cached)
      = [conditional HEAD cached; conditional GET cached]
      /\ (fetch w dbUrl (conditional GET cached) = None ->
          snd (revalidateRemoteDb w dbUrl cached) = throw NetworkError)
      /\ (forall response,
          fetch w dbUrl (conditional GET cached) = Some response ->
          status response = 304 ->
          snd (revalidateRemoteDb w dbUrl cached)
          = ret (NotModified (echo cached)))
      /\ (forall response,
          fetch w dbUrl (conditional GET cached) = Some response ->
          status response <> 304 -> ok response = false ->
          snd (revalidateRemoteDb w dbUrl cached)
          = throw (FetchFailed (status response)))
      /\ (forall response,
          fetch w dbUrl (conditional GET cached) = Some response ->
          ok response = true ->
          snd (revalidateRemoteDb w dbUrl cached)
          = ret (Downloaded (body response)
                   {| v_etag := or_empty (header_etag response);
                      v_lastModified :=
                        or_empty (header_last_modified response) |}))).
Proof.
  split.
  { intros head Hhead Hs. unfold revalidateRemoteDb. rewrite Hhead, Hs.
    reflexivity. }
  split.
  { intros head Hhead Hok Hmatch. unfold revalidateRemoteDb. rewrite Hhead.
    rewrite (ok_not_304 _ Hok), Hok. cbn [andb].
    apply validators_match_equal in Hmatch. now rewrite Hmatch. }
  split.
  { intros head _.
    destruct (Z.eq_dec (status head) 304) as [Hs|Hs]; [now left | right].
    destruct (ok head) eqn:Hok; [|right; split; [exact Hs | now left]].
    destruct (validators_match (response_validators head) cached) eqn:Hm.
    - left. split; [reflexivity | now apply validators_match_equal].
    - right. split; [exact Hs | right].
      intros Heq. apply validators_match_equal in Heq. congruence. }
  intros Hhead.
  assert (Hget : revalidateRemoteDb w dbUrl cached = then_get w dbUrl cached).
  { unfold revalidateRemoteDb.
    destruct (fetch w dbUrl (conditional HEAD cached)) as [head|];
      [|reflexivity].
    destruct Hhead as [Hs Hno]. apply Z.eqb_neq in Hs. rewrite Hs.
    destruct Hno as [Hok|Hno]; [now rewrite Hok|].
    destruct (validators_match (response_validators head) cached) eqn:Hm.
    - apply validators_match_equal in Hm. contradiction.
    - now rewrite andb_false_r. }
  rewrite Hget. unfold then_get, revalidate_get. cbn [fst snd].
  split; [reflexivity|].
  split; [intros Hnone; now rewrite Hnone|].
  split.
  { intros response Hresp Hs. rewrite Hresp, Hs. reflexivity. }
  split.
  { intros response Hresp Hs Hok. rewrite Hresp, Hok.
    apply Z.eqb_neq in Hs. now rewrite Hs. }
  intros response Hresp Hok. rewrite Hresp, Hok, (ok_not_304 _ Hok).
  reflexivity.
Qed.

(** The server sends a date and no entity tag (or an entity tag that is the
    empty string), and the file has changed. The returned etag, read as the
    empty string, equals the cached etag, the HEAD is a 200, and the body is
    downloaded all the same. *)
Lemma C5_empty_etag_is_no_match :
  let cached := cachedMeta remote_ready_dated in
  let date := Some "Tue, 02 Jan 2024 00:00:00 GMT" in
  (ok (reply 200 None date) = true
   /\ v_etag (response_validators (reply 200 None date)) = etag cached
   /\ revalidateRemoteDb
        (server (Some (reply 200 None date)) (Some (reply 200 None date)) None)
        remote_url cached
      = ([conditional HEAD cached; conditional GET cached],
         ret (Downloaded [83; 81; 76]
                {| v_etag := ""; v_lastModified := or_empty date |})))
  /\ (header_etag (reply 200 (Some "") date) = Some (etag cached)
      /\ revalidateRemoteDb
           (server (Some (reply 200 (Some "") date))
              (Some (reply 200 (Some "") date)) None)
           remote_url cached
         = ([conditional HEAD cached; conditional GET cached],
            ret (Downloaded [83; 81; 76]
                   {| v_etag := ""; v_lastModified := or_empty date |}))).
Proof. repeat split. Qed.

Lemma C5_revalidation_protocol_witness :
  let cached := cachedMeta remote_ready in
  let fresh := reply 200 (Some "v2") None in
  revalidateRemoteDb (server (Some (reply 304 None None)) None None)
    remote_url cached
  = ([conditional HEAD cached], ret (NotModified (echo cached)))
  /\ revalidateRemoteDb (server (Some (reply 200 (Some "v1") None)) None None)
       remote_url cached
     = ([conditional HEAD cached],
        ret (NotModified {| v_etag := "v1"; v_lastModified := "" |}))
  /\ fst (revalidateRemoteDb (server (Some fresh) (Some fresh) None)
            remote_url cached)
     = [conditional HEAD cached; conditional GET cached]
  /\ snd (revalidateRemoteDb (server (Some fresh) (Some fresh) None)
            remote_url cached)
     = ret (Downloaded [83; 81; 76] {| v_etag := "v2"; v_lastModified := "" |})
  /\ snd (revalidateRemoteDb (server None None None) remote_url cached)
     = throw NetworkError
  /\ snd (revalidateRemoteDb
            (server (Some (reply 405 None None)) (Some (reply 304 None None))
               None)
            remote_url cached)
     = ret (NotModified (echo cached))
  /\ snd (revalidateRemoteDb (server None (Some (reply 503 None None)) None)
            remote_url cached)
     = throw (FetchFailed 503).
Proof.
  intros cached fresh.
  assert (Hfresh : head_inconclusive (Some fresh) cached).
  { split; [discriminate | right].
    intros [[_ H]|[H _]]; [discriminate H | now apply H]. }
  assert (H405 : head_inconclusive (Some (reply 405 None None)) cached).
  { split; [discriminate | left; reflexivity]. }
  split.
  { destruct (C5_revalidation_protocol
                (server (Some (reply 304 None None)) None None)
                remote_url cached) as (H & _).
    apply (H (reply 304 None None)); reflexivity. }
  split.
  { destruct (C5_revalidation_protocol
                (server (Some (reply 200 (Some "v1") None)) None None)
                remote_url cached) as (_ & H & _).
    apply (H (reply 200 (Some "v1") None)); try reflexivity.
    left. split; [discriminate | reflexivity]. }
  split.
  { destruct (C5_revalidation_protocol (server (Some fresh) (Some fresh) None)
                remote_url cached) as (_ & _ & _ & H).
    exact (proj1 (H Hfresh)). }
  split.
  { destruct (C5_revalidation_protocol (server (Some fresh) (Some fresh) None)
                remote_url cached) as (_ & _ & _ & H).
    destruct (H Hfresh) as (_ & _ & _ & _ & Hok).
    apply (Hok fresh); reflexivity. }
  split.
  { destruct (C5_revalidation_protocol (server None None None)
                remote_url cached) as (_ & _ & _ & H).
    destruct (H I) as (_ & Hnone & _).
    apply Hnone; reflexivity. }
  split.
  { destruct (C5_revalidation_protocol
                (server (Some (reply 405 None None))
                   (Some (reply 304 None None)) None)
                remote_url cached) as (_ & _ & _ & H).
    destruct (H H405) as (_ & _ & H304 & _).
    apply (H304 (reply 304 None None)); reflexivity. }
  destruct (C5_revalidation_protocol
              (server None (Some (reply 503 None None)) None)
              remote_url cached) as (_ & _ & _ & H).
  destruct (H I) as (_ & _ & _ & Hfail & _).
  apply (Hfail (reply 503 None None)); try reflexivity. discriminate.
Defined.

(* ----------------------------------------------------------------- *)
(** ** Queries *)

Lemma has_columns_subset (t : Table) (cols cols' : list string) :
  incl cols' cols -> has_columns t cols = true -> has_columns t cols' = true.
Proof.
  unfold has_columns. rewrite !forallb_forall. intros Hincl H c Hc.
  apply H, Hincl, Hc.
Qed.

Lemma prepare_subset (db : Database) (name : string) (cols cols' : list string)
    (t : Table) :
  incl cols' cols -> prepare db name cols = ret t -> prepare db name cols' = ret t.
Proof.
  unfold prepare. intros Hincl.
  destruct (quotable name); [|discriminate].
  destruct (find_table db name) as [t'|]; [|discriminate].
  destruct (has_columns t' cols) eqn:Hc; [|discriminate].
  intros Heq. now rewrite (has_columns_subset t' cols cols' Hincl Hc).
Qed.

Lemma map_indexed_length {A B : Type} (f : A -> nat -> B) (from : nat)
    (l : list A) :
  List.length (map_indexed f from l) = List.length l.
Proof.
  revert from. induction l as [|x l IH]; intros from; simpl;
    [reflexivity | now rewrite IH].
Qed.

Lemma drop_rows_skipn {A : Type} (n : Z) (rows : list A) :
  drop_rows n rows = skipn (Z.to_nat n) rows.
Proof.
  revert n. induction rows as [|row rows IH]; intros n; cbn [drop_rows].
  - now rewrite skipn_nil.
  - destruct (0 <? n) eqn:E.
    + apply Z.ltb_lt in E. rewrite IH.
      replace (Z.to_nat n) with (S (Z.to_nat (n - 1))) by lia. reflexivity.
    + apply Z.ltb_ge in E. replace (Z.to_nat n) with 0%nat by lia.
      reflexivity.
Qed.

Lemma take_rows_firstn {A : Type} (n : Z) (rows : list A) :
  take_rows n rows = firstn (Z.to_nat n) rows.
Proof.
  revert n. induction rows as [|row rows IH]; intros n; cbn [take_rows].
  - now rewrite firstn_nil.
  - destruct (0 <? n) eqn:E.
    + apply Z.ltb_lt in E. rewrite IH.
      replace (Z.to_nat n) with (S (Z.to_nat (n - 1))) by lia. reflexivity.
    + apply Z.ltb_ge in E. replace (Z.to_nat n) with 0%nat by lia.
      reflexivity.
Qed.

Lemma limit_offset_page {A : Type} (limit offset : Z) (rows : list A) :
  0 <= limit ->
  limit_offset limit offset rows
  = firstn (Z.to_nat limit) (skipn (Z.to_nat offset) rows).
Proof.
  intros H. unfold limit_offset.
  rewrite drop_rows_skipn, take_rows_firstn.
  destruct (limit <? 0) eqn:E; [apply Z.ltb_lt in E; lia | reflexivity].
Qed.

Lemma round53_exact (z : Z) : Z.abs z <= 2 ^ 53 -> round53 z = z.
Proof.
  intros H. unfold round53. apply Z.leb_le in H. now rewrite H.
Qed.

Lemma offset_exact (args : ListArgs) :
  Z.abs (page_of args - 1) <= 2 ^ 53 ->
  Z.abs ((page_of args - 1) * pageSize_of args) <= 2 ^ 53 ->
  offset_of args = Z.max 0 ((page_of args - 1) * pageSize_of args).
Proof.
  intros Hpage Hproduct. unfold offset_of, js_times, js_minus.
  now rewrite (round53_exact _ Hpage), (round53_exact _ Hproduct).
Qed.

Lemma fits_int64_bounds (n : Z) :
  fits_int64 n = true <-> - 2 ^ 63 < n < 2 ^ 63.
Proof.
  unfold fits_int64. rewrite andb_true_iff, !Z.ltb_lt. reflexivity.
Qed.

(** The WHERE clause as SQLite reads it: with a category alone it is the
    category term; with a search text alone it is the disjunction of the
    nine search terms; with both, the category term is ANDed to the first
    search term only, and each of the other eight search terms keeps a row
    by itself. *)
Lemma where_clause_reading (t : Table) (q category : string) (row : SqlRow) :
  let like name text :=
    sql_like (column row (declared t name)) ("%" ++ text ++ "%") in
  let rest :=
    (like "tagline" q || (like "description" q || (like "description_zh" q
     || (like "description_en" q || (like "use_case" q
     || (like "use_case_en" q || (like "tags" q || like "tags_en" q)))))))%bool
  in
  where_holds t (buildWhereClause q category) row
  = if nonempty category then
      if nonempty q
      then ((like "categories" category && like "skill_name" q) || rest)%bool
      else like "categories" category
    else
      if nonempty q then (like "skill_name" q || rest)%bool else true.
Proof.
  unfold buildWhereClause, where_holds.
  destruct (nonempty category), (nonempty q); reflexivity.
Qed.

(** C6. For a list query whose page size is not negative, on a table that
    has the columns the statements name, and whose page size and offset a
    64-bit integer holds: the rows skipped before the page are the first
    [offset] matching rows in the requested order, where [offset] is
    max(0, (page-1)*pageSize) as JavaScript computes it, which is that
    number exactly up to 2^53; the page holds the rows that follow, at most
    pageSize of them; and [total] is the number of all rows the WHERE clause
    of the page statement matches, whatever the page. *)
Theorem C6_pagination `{U : Utils} (cached : option string)
    (db : Database) (table : string) (t : Table) (args : ListArgs) :
  resolve_table cached db = Some table ->
  prepare db table (page_statement_columns args) = ret t ->
  0 <= pageSize_of args < 2 ^ 63 ->
  offset_of args < 2 ^ 63 ->
  exists result,
    list_from cached db args = ret result
    /\ (forall cfg w now done st st',
        await_getDb cfg w now done st = (st', ret db) ->
        cachedTable st' = cached ->
        listSkills cfg w now done st args = (st', ret result))
    /\ items result
       = map_indexed normalizeSkill 0
           (map (getAsObject (map (declared t) listed_columns))
              (firstn (Z.to_nat (pageSize_of args))
                 (skipn (Z.to_nat (offset_of args)) (matching_rows t args))))
    /\ (Z.abs (page_of args - 1) <= 2 ^ 53 ->
        Z.abs ((page_of args - 1) * pageSize_of args) <= 2 ^ 53 ->
        offset_of args = Z.max 0 ((page_of args - 1) * pageSize_of args))
    /\ Z.of_nat (List.length (items result)) <= pageSize_of args
    /\ total result
       = Z.of_nat
           (List.length
              (filter
                 (where_holds t
                    (buildWhereClause (q_of args) (category_of args)))
                 (tbl_rows t)))
    /\ total result = Z.of_nat (List.length (matching_rows t args))
    /\ page result = page_of args
    /\ pageSize result = pageSize_of args.
Proof.
  intros Htable Hprep Hsize Hoffset.
  assert (Hcount : prepare db table
                     (where_columns
                        (buildWhereClause (q_of args) (category_of args)))
                   = ret t).
  { apply (prepare_subset db table (page_statement_columns args)); [|exact Hprep].
    unfold page_statement_columns. intros c Hc.
    apply in_or_app. right. apply in_or_app. now left. }
  assert (Hfits : (fits_int64 (pageSize_of args)
                   && fits_int64 (offset_of args))%bool = true).
  { apply andb_true_iff. split; apply fits_int64_bounds; [lia|].
    split; [|exact Hoffset]. unfold offset_of. lia. }
  assert (Hlist : list_from cached db args
                  = ret {| items :=
                             map_indexed normalizeSkill 0
                               (map (getAsObject (map (declared t) listed_columns))
                                  (firstn (Z.to_nat (pageSize_of args))
                                     (skipn (Z.to_nat (offset_of args))
                                        (matching_rows t args))));
                           total :=
                             Z.of_nat
                               (List.length
                                  (filter
                                     (where_holds t
                                        (buildWhereClause (q_of args)
                                           (category_of args)))
                                     (tbl_rows t)));
                           page := page_of args;
                           pageSize := pageSize_of args |}).
  { unfold list_from. rewrite Htable. cbn zeta.
    rewrite Hcount. cbn [bind ret].
    unfold page_statement_columns in Hprep. rewrite Hprep. cbn [bind ret].
    rewrite Hfits, limit_offset_page by lia. reflexivity. }
  eexists. split; [exact Hlist|].
  split.
  { intros cfg w now done st st' Hawait Hcached.
    unfold listSkills, after_getDb. rewrite Hawait, Hcached. cbn [bind ret].
    now rewrite Hlist. }
  cbn [items total page pageSize].
  split; [reflexivity|].
  split; [apply offset_exact|].
  split.
  { rewrite map_indexed_length, length_map.
    pose proof (firstn_le_length (Z.to_nat (pageSize_of args))
                  (skipn (Z.to_nat (offset_of args)) (matching_rows t args)))
      as Hle.
    lia. }
  split; [reflexivity|].
  split; [|split; reflexivity].
  unfold matching_rows, order_by. now rewrite sort_by_length.
Qed.

(** P7: page 2 of size 10 over 25 matching rows; and a query with a search
    text and a category, which keeps the row the search text alone finds. *)
Lemma C6_pagination_witness :
  (exists result,
     list_from (U := sample_utils) (Some "skills") twenty_five
       {| arg_q := None; arg_category := None; arg_page := Some 2;
          arg_pageSize := Some 10; arg_sort := None |}
     = ret result
     /\ List.length (items result) = 10%nat
     /\ map id (items result)
        = map JNum [11; 12; 13; 14; 15; 16; 17; 18; 19; 20]
     /\ total result = 25)
  /\ (exists result,
        list_from (U := sample_utils) (Some "skills") two_skills
          {| arg_q := Some "use beta"; arg_category := Some "zzz";
             arg_page := None; arg_pageSize := None; arg_sort := None |}
        = ret result
        /\ map skill_name (items result) = [JStr "beta"]
        /\ total result = 1).
Proof.
  split.
  - destruct (C6_pagination (U := sample_utils) (Some "skills") twenty_five
                "skills"
                {| tbl_name := "skills"; tbl_columns := skill_columns;
                   tbl_typed := skill_types;
                   tbl_rows :=
                     map (fun n => skill_row (Z.of_nat n)
                                     ("skill" ++ decimal (Z.of_nat n))
                                     "coding" (Z.of_nat n) "2024-01-01")
                       (seq 1 25) |}
                {| arg_q := None; arg_category := None; arg_page := Some 2;
                   arg_pageSize := Some 10; arg_sort := None |})
      as (result & Hres & _ & Hitems & _ & _ & Htotal & _).
    + reflexivity.
    + reflexivity.
    + vm_compute. split; [discriminate | reflexivity].
    + reflexivity.
    + exists result. split; [exact Hres|].
      rewrite Hitems, Htotal. vm_compute. repeat split.
  - destruct (C6_pagination (U := sample_utils) (Some "skills") two_skills
                "skills"
                {| tbl_name := "skills"; tbl_columns := skill_columns;
                   tbl_typed := skill_types;
                   tbl_rows := [skill_row 1 "alpha" "coding" 5 "2024-01-01";
                                skill_row 2 "beta" "coding" 50 "2024-02-01"] |}
                {| arg_q := Some "use beta"; arg_category := Some "zzz";
                   arg_page := None; arg_pageSize := None; arg_sort := None |})
      as (result & Hres & _ & Hitems & _ & _ & Htotal & _).
    + reflexivity.
    + reflexivity.
    + vm_compute. split; [discriminate | reflexivity].
    + reflexivity.
    + exists result. split; [exact Hres|].
      rewrite Hitems, Htotal. vm_compute. repeat split.
Defined.

(** A page so far out that its offset is no 64-bit integer: the page
    statement is refused and the query fails, after the count was taken. *)
Lemma list_beyond_int64_fails `{U : Utils} (cached : option string)
    (db : Database) (table : string) (t : Table) (args : ListArgs) :
  resolve_table cached db = Some table ->
  prepare db table (page_statement_columns args) = ret t ->
  2 ^ 63 <= offset_of args \/ 2 ^ 63 <= pageSize_of args
  \/ pageSize_of args <= - 2 ^ 63 ->
  list_from cached db args = throw SqlError.
Proof.
  intros Htable Hprep Hout.
  assert (Hcount : prepare db table
                     (where_columns
                        (buildWhereClause (q_of args) (category_of args)))
                   = ret t).
  { apply (prepare_subset db table (page_statement_columns args)); [|exact Hprep].
    unfold page_statement_columns. intros c Hc.
    apply in_or_app. right. apply in_or_app. now left. }
  unfold list_from. rewrite Htable. cbn zeta.
  rewrite Hcount. cbn [bind ret].
  unfold page_statement_columns in Hprep. rewrite Hprep. cbn [bind ret].
  assert (Hfits : (fits_int64 (pageSize_of args)
                   && fits_int64 (offset_of args))%bool = false).
  { apply andb_false_iff. unfold fits_int64.
    destruct Hout as [H|[H|H]]; [right | left | left];
      apply andb_false_iff.
    - right. apply Z.ltb_ge. exact H.
    - right. apply Z.ltb_ge. exact H.
    - left. apply Z.ltb_ge. exact H. }
  now rewrite Hfits.
Qed.









Lemma choose_table_nonempty (names : list string) (t : string) :
  choose_table names = Some t -> t <> "".
Proof.
  unfold choose_table.
  destruct (includes names "skills"); [intros [= <-]; discriminate|].
  destruct (includes names "skill"); [intros [= <-]; discriminate|].
  destruct names as [|first rest]; [discriminate|].
  destruct (truthy (JStr first)) eqn:Ht; [|discriminate].
  intros [= <-]. simpl in Ht. apply negb_true_iff, String.eqb_neq in Ht.
  exact Ht.
Qed.

(** What every load leaves behind: a consistent store, in which the
    dataset it resolved to, if any, is the cached one. *)
Definition settled (outcome : Store * Result Database) : Prop :=
  consistent (fst outcome)
  /\ forall db, snd outcome = ret db -> cachedDb (fst outcome) = Some db.

Lemma consistent_with_meta (st : Store) (m : Meta) :
  consistent st -> consistent (with_meta st m).
Proof. exact (fun H => H). Qed.

Lemma consistent_with_loading (st : Store) (p : option Pending) (n : nat) :
  consistent st -> consistent (with_loading st p n).
Proof. exact (fun H => H). Qed.

Lemma failed_load_settled (st : Store) (e : Error) :
  consistent st -> settled (st, throw e).
Proof. intros H. split; [exact H | discriminate]. Qed.

Lemma buildDbFromBuffer_settled (w : World) (buffer : list Z)
    (meta : MetaPatch) (st : Store) :
  consistent st -> settled (buildDbFromBuffer w buffer meta st).
Proof.
  intros H. unfold buildDbFromBuffer.
  destruct (sqlite_open w buffer) as [db|];
    [|now apply failed_load_settled].
  destruct (selectTableName db) as [table|] eqn:Hsel;
    [|now apply failed_load_settled].
  split.
  - unfold consistent. cbn. exists table. now split.
  - cbn. intros db' [= <-]. reflexivity.
Qed.

Lemma loadLocalDb_settled (w : World) (dbPath : string) (now : Z) (st : Store) :
  consistent st -> settled (loadLocalDb w dbPath now st).
Proof.
  intros H. unfold loadLocalDb.
  destruct (stat w dbPath) as [mtime|]; [|now apply failed_load_settled].
  destruct (unchanged_file st dbPath mtime) as [db|] eqn:Hsame.
  - split; [exact H|]. cbn. intros db' [= <-].
    unfold unchanged_file in Hsame.
    destruct (cachedDb st) as [db'|]; [|discriminate].
    destruct (_ && _)%bool; [|discriminate]. congruence.
  - destruct (readFile w dbPath) as [buffer|];
      [|now apply failed_load_settled].
    now apply buildDbFromBuffer_settled.
Qed.

Lemma download_settled (w : World) (dbUrl : string) (now : Z) (st : Store) :
  consistent st -> settled (download w dbUrl now st).
Proof.
  intros H. unfold download.
  destruct (fetch w dbUrl plain_get) as [response|];
    [|now apply failed_load_settled].
  destruct (negb (ok response)); [now apply failed_load_settled|].
  now apply buildDbFromBuffer_settled.
Qed.

Lemma loadRemoteDb_settled (w : World) (dbUrl : string) (now : Z) (st : Store) :
  consistent st -> settled (loadRemoteDb w dbUrl now st).
Proof.
  intros H. unfold loadRemoteDb.
  destruct (cachedDb st) as [db|] eqn:Hdb; [|now apply download_settled].
  destruct (source (cachedMeta st) =? dbUrl)%string;
    [|now apply download_settled].
  destruct (snd (revalidateRemoteDb w dbUrl (cachedMeta st)))
    as [error|[meta|buffer meta]].
  - cbn [cachedDb with_meta]. rewrite Hdb.
    split; [exact H|]. cbn. intros db' [= <-]. exact Hdb.
  - split; [exact H|]. cbn. intros db' [= <-]. exact Hdb.
  - now apply buildDbFromBuffer_settled.
Qed.

Lemma complete_settled (w : World) (p : Pending) (done : Z) (st : Store) :
  consistent st -> settled (complete w p done st).
Proof.
  intros H. unfold complete.
  assert (Hload : settled (run_load w p done st)).
  { unfold run_load. destruct (type (load_source p));
      [now apply loadLocalDb_settled | now apply loadRemoteDb_settled]. }
  destruct (run_load w p done st) as [st' outcome]. exact Hload.
Qed.

Lemma getDb_consistent (cfg : Config) (now : Z) (st : Store) :
  consistent st -> consistent (fst (getDb cfg now st)).
Proof.
  intros H. unfold getDb.
  destruct (cachedDb st) eqn:Hdb, (needsCheck cfg now st),
    (loadingPromise st); exact H.
Qed.

Lemma await_getDb_settled (cfg : Config) (w : World) (now done : Z)
    (st : Store) :
  consistent st -> settled (await_getDb cfg w now done st).
Proof.
  intros H. unfold await_getDb.
  pose proof (getDb_consistent cfg now st H) as Hcalled.
  destruct (getDb cfg now st) as [st1 answer] eqn:Hget. cbn [fst] in Hcalled.
  destruct answer as [db|p|p]; try now apply complete_settled.
  split; [exact Hcalled|]. cbn. intros db' [= <-].
  unfold getDb in Hget.
  destruct (cachedDb st) as [db'|] eqn:Hdb.
  - destruct (needsCheck cfg now st).
    + destruct (loadingPromise st); discriminate.
    + injection Hget as <- <-. exact Hdb.
  - destruct (loadingPromise st); discriminate.
Qed.

Lemma step_consistent (st : Store) (e : Event) :
  consistent st -> consistent (step st e).
Proof.
  intros H. destruct e as [cfg now|w done]; cbn [step].
  - now apply getDb_consistent.
  - unfold settle. destruct (loadingPromise st) as [p|]; [|exact H].
    pose proof (complete_settled w p done st H) as [Hc _].
    destruct (complete w p done st). exact Hc.
Qed.

Lemma run_consistent (events : list Event) : consistent (run events).
Proof.
  unfold run.
  assert (Hfrom : forall st, consistent st ->
                             consistent (fold_left step events st)).
  { induction events as [|e events IH]; intros st H; [exact H|].
    cbn [fold_left]. apply IH. now apply step_consistent. }
  apply Hfrom. reflexivity.
Qed.

Lemma first_load_fails (cfg : Config) (w : World) (now done : Z) (st : Store)
    (e : Error) :
  cachedDb st = None -> loadingPromise st = None ->
  (forall st1, cachedDb st1 = None ->
     snd (match type (getDbSource cfg) with
          | remote => download w (key (getDbSource cfg)) now st1
          | local => loadLocalDb w (key (getDbSource cfg)) done st1
          end) = throw e) ->
  snd (await_getDb cfg w now done st) = throw e.
Proof.
  intros Hdb Hnone Hload. unfold await_getDb, getDb.
  rewrite Hdb, Hnone. unfold complete, run_load.
  cbn [load_source load_started].
  specialize (Hload (with_loading st
                       (Some {| promise_id := promises st;
                                load_source := getDbSource cfg;
                                load_started := now |})
                       (S (promises st))) Hdb).
  destruct (type (getDbSource cfg)).
  - destruct (loadLocalDb _ _ _ _). exact Hload.
  - unfold loadRemoteDb. cbn [cachedDb with_loading]. rewrite Hdb.
    destruct (download _ _ _ _). exact Hload.
Qed.

(** C8 (as amended). In every store a history of calls and completions
    leads to, whenever [getDb] resolves a table is resolved, under a name
    that is not empty: none of the three operations takes its no-table
    branch. A dataset in which no table is found is refused when it is
    built, with the no-table error and the store left as it was; when
    nothing is cached and the source serves such a dataset, [getDb] fails
    with that error; and a failure of [getDb] is the failure of
    [listSkills], of [getSkillSummary] and of [getSkillByIdentifier]. *)
Theorem C8_no_table `{U : Utils} `{E : Engine} (events : list Event)
    (cfg : Config) (w : World) (now done : Z) (args : ListArgs)
    (identifier : option string) :
  (forall st' db,
   await_getDb cfg w now done (run events) = (st', ret db) ->
   exists table,
     table <> "" /\ cachedTable st' = Some table
     /\ resolve_table (cachedTable st') db = Some table
     /\ listSkills cfg w now done (run events) args
        = (st', list_from (Some table) db args)
     /\ getSkillSummary cfg w now done (run events)
        = (st', summary_from (Some table) db)
     /\ getSkillByIdentifier cfg w now done (run events) identifier
        = (st', get_from (Some table) db identifier))
  /\ (forall buffer meta st db,
      sqlite_open w buffer = Some db -> selectTableName db = None ->
      buildDbFromBuffer w buffer meta st = (st, throw NoTableFound))
  /\ (forall buffer db,
      cachedDb (run events) = None -> loadingPromise (run events) = None ->
      selectTableName db = None -> sqlite_open w buffer = Some db ->
      match type (getDbSource cfg) with
      | local =>
          stat w (key (getDbSource cfg)) <> None
          /\ readFile w (key (getDbSource cfg)) = Some buffer
      | remote =>
          exists response,
            fetch w (key (getDbSource cfg)) plain_get = Some response
            /\ ok response = true /\ body response = buffer
      end ->
      snd (await_getDb cfg w now done (run events)) = throw NoTableFound)
  /\ (forall st' e,
      await_getDb cfg w now done (run events) = (st', throw e) ->
      listSkills cfg w now done (run events) args = (st', throw e)
      /\ getSkillSummary cfg w now done (run events) = (st', throw e)
      /\ getSkillByIdentifier cfg w now done (run events) identifier
         = (st', throw e)).
Proof.
  split.
  { intros st' db Hget.
    pose proof (await_getDb_settled cfg w now done (run events)
                  (run_consistent events)) as [Hc Hdb].
    rewrite Hget in Hc, Hdb. cbn [fst snd] in Hc, Hdb.
    specialize (Hdb db eq_refl). unfold consistent in Hc. rewrite Hdb in Hc.
    destruct Hc as (table & Htable & Hsel).
    assert (Hne : table <> "") by exact (choose_table_nonempty _ _ Hsel).
    assert (Hres : resolve_table (cachedTable st') db = Some table).
    { unfold resolve_table. rewrite Htable. cbn [truthy].
      apply String.eqb_neq in Hne. now rewrite Hne. }
    exists table. split; [exact Hne|]. split; [exact Htable|].
    split; [exact Hres|].
    unfold listSkills, getSkillSummary, getSkillByIdentifier, after_getDb.
    rewrite Hget, Htable. cbn [bind ret]. repeat split. }
  split.
  { intros buffer meta st db Hopen Hsel. unfold buildDbFromBuffer.
    now rewrite Hopen, Hsel. }
  split.
  { intros buffer db Hdb Hnone Hsel Hopen Hserved.
    apply first_load_fails; [exact Hdb | exact Hnone |].
    intros st1 Hdb1.
    destruct (type (getDbSource cfg)).
    - destruct Hserved as [Hstat Hread]. unfold loadLocalDb.
      destruct (stat w (key (getDbSource cfg))) as [mtime|];
        [|contradiction].
      unfold unchanged_file. rewrite Hdb1, Hread.
      unfold buildDbFromBuffer. now rewrite Hopen, Hsel.
    - destruct Hserved as (response & Hfetch & Hok & Hbody).
      unfold download. rewrite Hfetch, Hok. cbn [negb].
      unfold buildDbFromBuffer. now rewrite Hbody, Hopen, Hsel. }
  intros st' e Hget.
  unfold listSkills, getSkillSummary, getSkillByIdentifier, after_getDb.
  rewrite Hget. repeat split.
Qed.

(** The file holds a dataset with no table but a system one, and nothing is
    cached: no table is resolvable in it, and each operation fails with the
    no-table error where the empty shapes were expected. *)
Lemma C8_dataset_without_table_fails :
  let args := {| arg_q := None; arg_category := None; arg_page := Some 3;
                 arg_pageSize := None; arg_sort := None |} in
  resolve_table None no_table_db = None
  /\ snd (listSkills (U := sample_utils) local_config (disk no_table_db)
            10 11 initial_store args)
     = throw NoTableFound
  /\ snd (getSkillSummary (U := sample_utils) local_config (disk no_table_db)
            10 11 initial_store)
     = throw NoTableFound
  /\ snd (getSkillByIdentifier (U := sample_utils) (E := sample_engine)
            local_config (disk no_table_db) 10 11 initial_store (Some "1"))
     = throw NoTableFound
  /\ snd (listSkills (U := sample_utils) local_config (disk no_table_db)
            10 11 initial_store args)
     <> ret {| items := []; total := 0; page := 3; pageSize := 16 |}.
Proof. repeat split. discriminate. Qed.

Lemma C8_no_table_witness :
  snd (listSkills (U := sample_utils) local_config (disk two_skills) 10 11
         initial_store
         {| arg_q := None; arg_category := None; arg_page := None;
            arg_pageSize := None; arg_sort := None |})
  = list_from (U := sample_utils) (Some "skills") two_skills
      {| arg_q := None; arg_category := None; arg_page := None;
         arg_pageSize := None; arg_sort := None |}
  /\ snd (await_getDb local_config (disk no_table_db) 10 11 initial_store)
     = throw NoTableFound
  /\ getSkillSummary (U := sample_utils) local_config offline 10 11
       initial_store
     = (with_loading initial_store None 1, throw SourceUnavailable).
Proof.
  split.
  { destruct (C8_no_table (U := sample_utils) (E := sample_engine) []
                local_config (disk two_skills) 10 11
                {| arg_q := None; arg_category := None; arg_page := None;
                   arg_pageSize := None; arg_sort := None |} None)
      as (H & _).
    destruct (H _ two_skills eq_refl) as (table & _ & Htable & _ & Hlist & _).
    injection Htable as <-.
    change (run []) with initial_store in Hlist. rewrite Hlist. reflexivity. }
  split.
  { destruct (C8_no_table (U := sample_utils) (E := sample_engine) []
                local_config (disk no_table_db) 10 11
                {| arg_q := None; arg_category := None; arg_page := None;
                   arg_pageSize := None; arg_sort := None |} None)
      as (_ & _ & H & _).
    apply (H [83; 81; 76] no_table_db); try reflexivity.
    split; [discriminate | reflexivity]. }
  destruct (C8_no_table (U := sample_utils) (E := sample_engine) []
              local_config offline 10 11
              {| arg_q := None; arg_category := None; arg_page := None;
                 arg_pageSize := None; arg_sort := None |} None)
    as (_ & _ & _ & H).
  destruct (H (with_loading initial_store None 1) SourceUnavailable eq_refl)
    as (_ & Hsummary & _).
  exact Hsummary.
Defined.

(* ----------------------------------------------------------------- *)
(** ** Single-flight loading *)

Lemma needsCheck_with_loading (cfg : Config) (now : Z) (st : Store)
    (p : option Pending) (n : nat) :
  needsCheck cfg now (with_loading st p n) = needsCheck cfg now st.
Proof. reflexivity. Qed.

Lemma getDb_while_loading (cfg : Config) (now : Z) (st : Store) (p : Pending) :
  loadingPromise st = Some p ->
  fst (getDb cfg now st) = st
  /\ (snd (getDb cfg now st) = Joined p
      \/ exists db, snd (getDb cfg now st) = Ready db).
Proof.
  intros Hp. unfold getDb.
  destruct (cachedDb st) as [db|]; [destruct (needsCheck cfg now st)|];
    rewrite ?Hp; cbn; eauto.
Qed.

Lemma getDb_joins (cfg : Config) (now : Z) (st : Store) (p : Pending) :
  loadingPromise st = Some p -> needsCheck cfg now st = true ->
  getDb cfg now st = (st, Joined p).
Proof.
  intros Hp Hneeds. unfold getDb. rewrite Hneeds, Hp.
  destruct (cachedDb st); reflexivity.
Qed.

Lemma calls_join (cfg : Config) (times : list Z) (st : Store) (p : Pending) :
  loadingPromise st = Some p ->
  (forall t, In t times -> needsCheck cfg t st = true) ->
  calls cfg times st = (st, map (fun _ => Joined p) times).
Proof.
  intros Hp. induction times as [|t times IH]; intros Hneeds; simpl.
  - reflexivity.
  - rewrite (getDb_joins cfg t st p Hp) by (apply Hneeds; now left).
    rewrite IH by (intros u Hu; apply Hneeds; now right). reflexivity.
Qed.

Lemma loads_started_joined (p : Pending) (times : list Z) :
  loads_started (map (fun _ => Joined p) times) = 0%nat.
Proof. induction times as [|t times IH]; [reflexivity | exact IH]. Qed.

(** C9. When callers find the cache absent or stale while no load is in
    flight, and call [getDb] one after the other before any load completes,
    the first call starts the one load and every call returns the same
    promise, so all of them settle with that load's outcome; while a load is
    in flight no call starts another; the completion of the load clears the
    way for the next one. *)
Theorem C9_single_flight (cfg : Config) (first : Z) (others : list Z)
    (st : Store) :
  loadingPromise st = None ->
  (forall t, In t (first :: others) -> needsCheck cfg t st = true) ->
  let p := {| promise_id := promises st; load_source := getDbSource cfg;
              load_started := first |} in
  let st1 := with_loading st (Some p) (S (promises st)) in
  calls cfg (first :: others) st
  = (st1, Started p :: map (fun _ => Joined p) others)
  /\ loads_started (snd (calls cfg (first :: others) st)) = 1%nat
  /\ (forall cfg' t st' q, loadingPromise st' = Some q ->
      fst (getDb cfg' t st') = st'
      /\ started (snd (getDb cfg' t st')) = false)
  /\ (forall w done,
      settle w done st1 = Some (complete w p done st1)
      /\ loadingPromise (fst (complete w p done st1)) = None
      /\ forall w' done', settle w' done' (fst (complete w p done st1)) = None).
Proof.
  intros Hnone Hneeds p st1.
  assert (Hfirst : getDb cfg first st = (st1, Started p)).
  { unfold getDb. rewrite (Hneeds first) by now left. rewrite Hnone.
    destruct (cachedDb st); reflexivity. }
  assert (Hcalls : calls cfg (first :: others) st
                   = (st1, Started p :: map (fun _ => Joined p) others)).
  { cbn [calls]. rewrite Hfirst.
    rewrite (calls_join cfg others st1 p); [reflexivity | reflexivity |].
    intros t Ht. unfold st1. rewrite needsCheck_with_loading.
    apply Hneeds. now right. }
  split; [exact Hcalls|]. split.
  { rewrite Hcalls. cbn [snd].
    pose proof (loads_started_joined p others) as Hjoined.
    unfold loads_started in *. cbn [filter started List.length].
    now rewrite Hjoined. }
  split.
  { intros cfg' t st' q Hq.
    destruct (getDb_while_loading cfg' t st' q Hq) as [Hst [Hj|[db Hr]]].
    - split; [exact Hst | now rewrite Hj].
    - split; [exact Hst | now rewrite Hr]. }
  intros w done.
  assert (Hclear : loadingPromise (fst (complete w p done st1)) = None).
  { unfold complete. destruct (run_load w p done st1). reflexivity. }
  split; [reflexivity|]. split; [exact Hclear|].
  intros w' done'. unfold settle. now rewrite Hclear.
Qed.

(** Three first-time callers of an empty cache. *)
Lemma C9_single_flight_witness :
  let p := {| promise_id := 0; load_source := getDbSource local_config;
              load_started := 10 |} in
  snd (calls local_config [10; 11; 12] initial_store)
  = [Started p; Joined p; Joined p]
  /\ loads_started (snd (calls local_config [10; 11; 12] initial_store)) = 1%nat.
Proof.
  destruct (C9_single_flight local_config 10 [11; 12] initial_store)
    as (H1 & H2 & _).
  - reflexivity.
  - intros t Ht. reflexivity.
  - split; [now rewrite H1 | exact H2].
Defined.

(* ----------------------------------------------------------------- *)
(** ** The summary *)

Lemma plus_one_exact (n : Z) :
  Z.abs (n + 1) <= 2 ^ 53 -> plus_one (JNum n) = JNum (n + 1).
Proof. intros H. cbn [plus_one]. now rewrite round53_exact. Qed.

Lemma sum_counts_nonneg (o : Obj) (s : Z) :
  positive_counts o -> sum_counts o = Some s -> 0 <= s.
Proof.
  revert s. induction o as [|[k v] o IH]; intros s Hpos Hsum.
  - injection Hsum as <-. lia.
  - inversion Hpos as [|? ? [n [Hv Hn]] Hrest]; subst. simpl in Hv. subst v.
    cbn [sum_counts] in Hsum.
    destruct (sum_counts o) as [s'|]; [|discriminate].
    injection Hsum as <-. specialize (IH s' Hrest eq_refl). lia.
Qed.

Lemma count_own_key (o : Obj) (k : string) (s : Z) :
  positive_counts o -> sum_counts o = Some s -> s < 2 ^ 53 ->
  positive_counts
    (set_own o k
       (plus_one
          (js_or (match own o k with Some v => v | None => JUndefined end)
             (JNum 0))))
  /\ sum_counts
       (set_own o k
          (plus_one
             (js_or (match own o k with Some v => v | None => JUndefined end)
                (JNum 0))))
     = Some (s + 1).
Proof.
  revert s. induction o as [|[k' v'] o IH]; intros s Hpos Hsum Hbound.
  - cbn [own set_own]. unfold js_or. cbn [truthy Z.eqb negb].
    rewrite plus_one_exact by (cbn; lia).
    injection Hsum as <-. split; [|reflexivity].
    constructor; [|constructor]. exists 1. split; [reflexivity | lia].
  - inversion Hpos as [|? ? [n [Hv Hn]] Hrest]; subst. simpl in Hv. subst v'.
    cbn [sum_counts] in Hsum.
    destruct (sum_counts o) as [s'|] eqn:Hs'; [|discriminate].
    injection Hsum as <-.
    pose proof (sum_counts_nonneg o s' Hrest Hs') as Hs'pos.
    cbn [own set_own]. destruct (k' =? k)%string eqn:Hk.
    + assert (Hnz : (n =? 0) = false) by (apply Z.eqb_neq; lia).
      unfold js_or. cbn [truthy]. rewrite Hnz. cbn [negb].
      rewrite plus_one_exact by lia.
      split.
      * constructor; [|exact Hrest]. exists (n + 1). split; [reflexivity | lia].
      * cbn [sum_counts]. rewrite Hs'. cbn [option_map]. f_equal. lia.
    + destruct (IH s' Hrest eq_refl) as [Hpos' Hsum']; [lia|].
      split.
      * constructor; [|exact Hpos']. exists n. split; [reflexivity | lia].
      * cbn [sum_counts]. rewrite Hsum'. cbn [option_map]. f_equal. lia.
Qed.

Lemma inherited_proto : inherited "__proto__" <> None.
Proof. discriminate. Qed.

Lemma count_row_adds_one `{U : Utils} (o : Obj) (row : Obj) (s : Z) :
  inherited (toString (pickCategory (get row "categories"))) = None ->
  positive_counts o -> sum_counts o = Some s -> s < 2 ^ 53 ->
  positive_counts (count_row o row) /\ sum_counts (count_row o row) = Some (s + 1).
Proof.
  intros Hinh Hpos Hsum Hbound. unfold count_row.
  set (k := toString (pickCategory (get row "categories"))) in *.
  assert (Hk : (k =? "__proto__")%string = false).
  { apply String.eqb_neq. intros ->. now apply inherited_proto. }
  unfold assign. rewrite Hk. unfold lookup. rewrite Hinh.
  destruct (count_own_key o k s Hpos Hsum Hbound) as [H1 H2].
  destruct (own o k); auto.
Qed.

(** Away from the names [Object.prototype] defines, and for fewer rows than
    2^53, the counts of the summary are numbers and add up to the total.
    [picked r] is the category of row [r] as the loop reads it. *)
Lemma summary_counts_add_up `{U : Utils} (cachedTable : option string)
    (db : Database) (table : string) (t : Table) :
  let picked (r : SqlRow) :=
    pickCategory
      (get (getAsObject [declared t "categories"] r) "categories") in
  resolve_table cachedTable db = Some table ->
  prepare db table ["categories"] = ret t ->
  (forall r, In r (tbl_rows t) -> inherited (toString (picked r)) = None) ->
  Z.of_nat (List.length (tbl_rows t)) < 2 ^ 53 ->
  exists summary,
    summary_from cachedTable db = ret summary
    /\ summary_total summary = Z.of_nat (List.length (tbl_rows t))
    /\ sum_counts (counts summary) = Some (summary_total summary).
Proof.
  intros picked Htable Hprep Hkeys Hsize. eexists. split.
  { unfold summary_from. rewrite Htable, Hprep. cbn [bind ret]. reflexivity. }
  cbn [summary_total counts]. unfold rowsFromStatement. rewrite length_map.
  split; [reflexivity|].
  assert (Hfold : forall rows o s,
             (forall r, In r rows -> inherited (toString (picked r)) = None) ->
             positive_counts o -> sum_counts o = Some s ->
             s + Z.of_nat (List.length rows) < 2 ^ 53 ->
             sum_counts
               (fold_left count_row
                  (map (getAsObject [declared t "categories"]) rows) o)
             = Some (s + Z.of_nat (List.length rows))).
  { induction rows as [|r rows IH]; intros o s Hr Hpos Hsum Hbound.
    - simpl. rewrite Hsum. f_equal. lia.
    - cbn [map fold_left]. cbn [List.length] in Hbound.
      destruct (count_row_adds_one o
                  (getAsObject [declared t "categories"] r) s)
        as [Hpos' Hsum']; try assumption; try lia.
      { apply Hr. now left. }
      rewrite (IH _ (s + 1)); try assumption.
      + f_equal. cbn [List.length]. lia.
      + intros r' Hr'. apply Hr. now right.
      + lia. }
  rewrite (Hfold (tbl_rows t) [] 0);
    [f_equal; lia | exact Hkeys | constructor | reflexivity | lia].
Qed.

Lemma constructor_row_counted `{U : Utils} :
  summary_from (Some "skills") constructor_skill
  = ret {| summary_total := 1;
           counts := count_row [] [("categories", JStr "constructor")] |}.
Proof.
  pose (t := {| tbl_name := "skills"; tbl_columns := skill_columns;
                tbl_typed := skill_types;
                tbl_rows :=
                  [skill_row 1 "builder" "constructor" 0 "2024-01-01"] |}).
  assert (Hprep : prepare constructor_skill "skills" ["categories"] = ret t)
    by (vm_compute; reflexivity).
  assert (Hrows : rowsFromStatement [declared t "categories"] (tbl_rows t)
                  = [[("categories", JStr "constructor")]])
    by (vm_compute; reflexivity).
  unfold summary_from.
  change (resolve_table (Some "skills") constructor_skill)
    with (Some "skills").
  cbv beta iota. rewrite Hprep. cbn [bind ret]. rewrite Hrows. reflexivity.
Qed.

(** C10, at the input where the code departs from it. For a dataset with one
    row whose category is picked as [constructor], the summary has total 1
    and, under [constructor], not the number 1 but the text of the inherited
    [Object] function followed by 1: the counts are not numbers adding up to
    the total. *)
Theorem C10_inherited_name_breaks_count `{U : Utils} :
  pickCategory (JStr "constructor") = JStr "constructor" ->
  summary_from (Some "skills") constructor_skill
  = ret {| summary_total := 1;
           counts := [("constructor",
                       JStr "function Object() { [native code] }1")] |}
  /\ snd (getSkillSummary local_config offline 2000 2001
            (ready_store constructor_skill (cachedMeta local_ready)))
     = ret {| summary_total := 1;
              counts := [("constructor",
                          JStr "function Object() { [native code] }1")] |}
  /\ sum_counts [("constructor", JStr "function Object() { [native code] }1")]
     <> Some 1.
Proof.
  intros Hpick.
  assert (H : summary_from (Some "skills") constructor_skill
              = ret {| summary_total := 1;
                       counts := [("constructor",
                                   JStr "function Object() { [native code] }1")] |}).
  { rewrite constructor_row_counted. unfold count_row.
    cbn [get own String.eqb Ascii.eqb Bool.eqb]. rewrite Hpick. reflexivity. }
  split; [exact H|]. split; [|discriminate].
  unfold getSkillSummary, after_getDb. cbn [await_getDb]. exact H.
Qed.

Lemma C10_inherited_name_breaks_count_witness :
  pickCategory (Utils := sample_utils) (JStr "constructor") = JStr "constructor"
  /\ summary_from (U := sample_utils) (Some "skills") constructor_skill
     = ret {| summary_total := 1;
              counts := [("constructor",
                          JStr "function Object() { [native code] }1")] |}.
Proof.
  split; [reflexivity|].
  apply (C10_inherited_name_breaks_count (U := sample_utils)). reflexivity.
Defined.

(* ----------------------------------------------------------------- *)
(** ** The examples of the specification *)

Example by_stars_beta_comes_first :
  listed {| arg_q := None; arg_category := None; arg_page := None;
            arg_pageSize := None; arg_sort := Some "stars" |}
  = [JStr "beta"; JStr "alpha"].
Proof. reflexivity. Qed.

Example oldest_alpha_comes_first :
  listed {| arg_q := None; arg_category := None; arg_page := None;
            arg_pageSize := None; arg_sort := Some "oldest" |}
  = [JStr "alpha"; JStr "beta"].
Proof. reflexivity. Qed.

Example search_reaches_use_case_en :
  listed {| arg_q := Some "USE BETA"; arg_category := Some "cod";
            arg_page := None; arg_pageSize := None; arg_sort := None |}
  = [JStr "beta"].
Proof. reflexivity. Qed.

(** With a search text and a category, the category is ANDed to the first
    search term only: a row found through another column is kept whatever
    its category. *)
Example category_binds_to_first_term :
  listed {| arg_q := Some "use beta"; arg_category := Some "zzz";
            arg_page := None; arg_pageSize := None; arg_sort := None |}
  = [JStr "beta"]
  /\ listed {| arg_q := Some "beta"; arg_category := Some "zzz";
               arg_page := None; arg_pageSize := None; arg_sort := None |}
     = [JStr "beta"]
  /\ listed {| arg_q := None; arg_category := Some "zzz";
               arg_page := None; arg_pageSize := None; arg_sort := None |}
     = [].
Proof. repeat split. Qed.

(** A page whose offset is no 64-bit integer. *)
Example page_beyond_int64 :
  list_from (U := sample_utils) (Some "skills") two_skills
    {| arg_q := None; arg_category := None;
       arg_page := Some 1000000000000000000; arg_pageSize := None;
       arg_sort := None |}
  = throw SqlError.
Proof. reflexivity. Qed.

(** A column declared [ID] is found by the statement under [id], and is
    returned under its declared name, where the normalizer does not read
    it: the record's id is derived from the name. *)
Example declared_name_is_returned :
  match get_from (U := sample_utils) (E := sample_engine) (Some "skills")
          text_ids (Some "2") with
  | inr (Some record) => (skill_name record, id record)
  | _ => (JNull, JNull)
  end = (JStr "beta", JStr "beta").
Proof. reflexivity. Qed.

Example two_coding_skills :
  summary_from (U := sample_utils) (Some "skills") two_skills
  = ret {| summary_total := 2; counts := [("coding", JNum 2)] |}.
Proof. reflexivity. Qed.

Example first_load_from_disk :
  let '(st, outcome) :=
    await_getDb local_config (disk two_skills) 10 11 initial_store in
  outcome = ret two_skills
  /\ cachedTable st = Some "skills"
  /\ lastChecked (cachedMeta st) = 11
  /\ loadingPromise st = None.
Proof. repeat split. Qed.

Example unchanged_file_is_not_read_again :
  loadLocalDb (disk two_skills) "/app/public/skill.db" 20000000 local_ready
  = (with_meta local_ready (touch (cachedMeta local_ready) 20000000),
     ret two_skills).
Proof. reflexivity. Qed.
